(* ===================================================================== *)
(* Plataforma 8D (src/App.jsx): the report document, its store, the       *)
(* application handlers and the PDF export, embedded and verified.        *)
(* ===================================================================== *)

From Stdlib Require Import ZArith String Ascii List Bool Lia.
From Stdlib Require Import DecimalString.
From stdpp Require Import base gmap strings list fin_maps.

Import ListNotations.
Local Open Scope string_scope.
Local Open Scope list_scope.
Set Warnings "-register-all".

(* --------------------------------------------------------------------- *)
(* 1. Document values                                                     *)
(* --------------------------------------------------------------------- *)

(** The values this application stores in a report document: strings,
    booleans, the creation timestamp, arrays and maps.  A map is the JS
    object it is read back as: an ordered list of (key, value) entries,
    since [Object.entries] is sensitive to the key order. *)
Inductive value : Type :=
| VStr (s : string)
| VBool (b : bool)
| VTime (t : Z)
| VArr (vs : list value)
| VObj (fs : list (string * value)).

Abbreviation fields := (list (string * value)).

(** JS truthiness, as used by [if (x)], [!x] and [x || y]. *)
Definition truthy (v : value) : bool :=
  match v with
  | VStr s => negb (String.eqb s "")
  | VBool b => b
  | _ => true
  end.

(** [o[k]] on an object: the value of the first (only) entry with key [k];
    [None] is JS [undefined]. *)
Fixpoint obj_get (k : string) (fs : fields) : option value :=
  match fs with
  | [] => None
  | (k', v) :: fs' => if String.eqb k k' then Some v else obj_get k fs'
  end.

(** [o[k] = v]: an existing key keeps its position, a new key is appended. *)
Fixpoint obj_set (k : string) (v : value) (fs : fields) : fields :=
  match fs with
  | [] => [(k, v)]
  | (k', v') :: fs' =>
      if String.eqb k k' then (k, v) :: fs' else (k', v') :: obj_set k v fs'
  end.

(** [{ ...a, ...b }]: the entries of [b] assigned onto a copy of [a]. *)
Definition spread (a b : fields) : fields :=
  fold_left (fun acc kv => obj_set (fst kv) (snd kv) acc) b a.

Definition keys (fs : fields) : list string := map fst fs.

(* --------------------------------------------------------------------- *)
(* 2. Field paths of the document store                                   *)
(* --------------------------------------------------------------------- *)

(** [s.split('.')] *)
Fixpoint split_dots (s : string) : list string :=
  match s with
  | EmptyString => [EmptyString]
  | String c s' =>
      if Ascii.eqb c "."%char then EmptyString :: split_dots s'
      else match split_dots s' with
           | [] => [String c EmptyString]
           | seg :: segs => String c seg :: segs
           end
  end.

(** The characters the store refuses in a dotted field path. *)
Definition reserved_char (c : ascii) : bool :=
  Ascii.eqb c "~"%char || Ascii.eqb c "*"%char || Ascii.eqb c "/"%char
  || Ascii.eqb c "["%char || Ascii.eqb c "]"%char.

Fixpoint has_reserved (s : string) : bool :=
  match s with
  | EmptyString => false
  | String c s' => reserved_char c || has_reserved s'
  end.

(** A dotted path is accepted when it has no reserved character and no
    empty segment (it is not empty, does not begin or end with a dot and
    has no two dots in a row). *)
Definition valid_field_path (p : string) : bool :=
  negb (has_reserved p)
  && forallb (fun seg => negb (String.eqb seg "")) (split_dots p).

(** Reading along a path of segments; [None] when a segment is missing or
    an inner node is not a map. *)
Fixpoint get_path (ks : list string) (fs : fields) : option value :=
  match ks with
  | [] => None
  | k :: ks' =>
      match obj_get k fs with
      | None => None
      | Some v =>
          match ks' with
          | [] => Some v
          | _ :: _ => match v with
                      | VObj sub => get_path ks' sub
                      | _ => None
                      end
          end
      end
  end.

(** The store's field update: the addressed field is set, inner maps are
    kept and merged into, and an inner node that is missing or is not a map
    becomes a map holding only the addressed field. *)
Fixpoint set_path (ks : list string) (v : value) (fs : fields) : fields :=
  match ks with
  | [] => fs
  | [k] => obj_set k v fs
  | k :: ks' =>
      let sub := match obj_get k fs with
                 | Some (VObj sub) => sub
                 | _ => []
                 end in
      obj_set k (VObj (set_path ks' v sub)) fs
  end.

(* --------------------------------------------------------------------- *)
(* 3. The document store                                                  *)
(* --------------------------------------------------------------------- *)

Inductive StoreError : Type := NotFound | Unavailable | InvalidArgument.

(** The store's side of the world: the documents by full document path,
    and whether the backend currently accepts writes. *)
Record World : Type := mkWorld {
  docs : gmap string fields;
  online : bool
}.

Inductive Request : Type :=
| AddDoc (coll : string) (data : fields)
| UpdateDoc (docPath : string) (field : string) (v : value)
| DeleteDoc (docPath : string).

(** Modelled from the spec: create-document of the document store (§6);
    [addDoc] is imported from firebase/firestore, whose code is not part of
    the repository.  The store picks the identifier [autoId], writes the
    document under the collection and returns the identifier. *)
Definition addDoc (coll autoId : string) (data : fields) (w : World)
  : World * (StoreError + string) :=
  if online w
  then (mkWorld (<[(coll ++ "/" ++ autoId)%string := data]> (docs w)) (online w), inr autoId)
  else (w, inl Unavailable).

(** Modelled from the spec: update-field(path, value) of the document store
    (§6); [updateDoc] is imported from firebase/firestore.  Only the
    addressed field of an existing document is written; a malformed path, an
    unreachable backend or a missing document rejects and writes nothing. *)
Definition updateDoc (docPath field : string) (v : value) (w : World)
  : World * option StoreError :=
  if negb (valid_field_path field) then (w, Some InvalidArgument)
  else if negb (online w) then (w, Some Unavailable)
  else match docs w !! docPath with
       | None => (w, Some NotFound)
       | Some fs =>
           (mkWorld (<[docPath := set_path (split_dots field) v fs]> (docs w))
                    (online w), None)
       end.

(** Modelled from the spec: delete-document(id) of the document store (§6);
    [deleteDoc] is imported from firebase/firestore.  Deleting a document
    that does not exist succeeds. *)
Definition deleteDoc (docPath : string) (w : World) : World * option StoreError :=
  if online w
  then (mkWorld (delete docPath (docs w)) (online w), None)
  else (w, Some Unavailable).

(* --------------------------------------------------------------------- *)
(* 4. What a handler leaves behind                                        *)
(* --------------------------------------------------------------------- *)

(** A [console.error] call: the message and the error object passed. *)
Definition LogEntry : Type := string * option StoreError.

(** How the promise of an [async] handler settles; [Fulfilled None] is a
    promise fulfilled with [undefined]. *)
Inductive Completion : Type :=
| Fulfilled (ret : option value)
| Rejected (e : StoreError).

Record Outcome : Type := mkOutcome {
  world : World;
  console : list LogEntry;
  issued : list Request;
  settled : Completion
}.

(** [!x] for a handle that is [null] or an object. *)
Definition missing {A : Type} (x : option A) : bool :=
  match x with
  | None => true
  | Some _ => false
  end.

(** [!x] for a state variable that is [null] or a string. *)
Definition absent (x : option string) : bool :=
  match x with
  | None => true
  | Some s => String.eqb s ""
  end.

(* --------------------------------------------------------------------- *)
(* 5. App: state and handlers                                             *)
(* --------------------------------------------------------------------- *)

Inductive View : Type := dashboard | workspace.

(** The handle returned by [getFirestore]. *)
Inductive Firestore : Type := firestore.

Record App : Type := mkApp {
  db : option Firestore;
  userId : option string;
  isAuthReady : bool;
  view : View;
  reports : list fields;
  activeReport : option fields;
  activeReportId : option string;
  isLoading : bool
}.

Definition setView (x : View) (a : App) : App :=
  mkApp (db a) (userId a) (isAuthReady a) x (reports a) (activeReport a)
        (activeReportId a) (isLoading a).
Definition setReports (x : list fields) (a : App) : App :=
  mkApp (db a) (userId a) (isAuthReady a) (view a) x (activeReport a)
        (activeReportId a) (isLoading a).
Definition setActiveReport (x : option fields) (a : App) : App :=
  mkApp (db a) (userId a) (isAuthReady a) (view a) (reports a) x
        (activeReportId a) (isLoading a).
Definition setActiveReportId (x : option string) (a : App) : App :=
  mkApp (db a) (userId a) (isAuthReady a) (view a) (reports a) (activeReport a)
        x (isLoading a).
Definition setIsLoading (x : bool) (a : App) : App :=
  mkApp (db a) (userId a) (isAuthReady a) (view a) (reports a) (activeReport a)
        (activeReportId a) x.
Definition setUserId (x : option string) (a : App) : App :=
  mkApp (db a) x (isAuthReady a) (view a) (reports a) (activeReport a)
        (activeReportId a) (isLoading a).
Definition setIsAuthReady (x : bool) (a : App) : App :=
  mkApp (db a) (userId a) x (view a) (reports a) (activeReport a)
        (activeReportId a) (isLoading a).
Definition setDb (x : option Firestore) (a : App) : App :=
  mkApp x (userId a) (isAuthReady a) (view a) (reports a) (activeReport a)
        (activeReportId a) (isLoading a).

(** The [useState] initial values of [App]. *)
Definition App_init : App :=
  mkApp None None false dashboard [] None None true.

(** What the environment supplies to a creation: the locale date string of
    [new Date()], the server's timestamp and the identifier the store picks. *)
Record Env : Type := mkEnv {
  today : string;
  now : Z;
  autoId : string
}.

Definition reportsCollectionPath (appId : string) : string :=
  ("artifacts/" ++ appId ++ "/public/data/8d-reports")%string.

Definition reportDocPath (appId reportId : string) : string :=
  ("artifacts/" ++ appId ++ "/public/data/8d-reports/" ++ reportId)%string.

Definition newReportTitle (env : Env) : string :=
  ("Nuevo Informe 8D - " ++ today env)%string.

Definition emptyAction : value :=
  VObj [("action", VStr ""); ("responsible", VStr ""); ("date", VStr "");
        ("verified", VBool false)].

(** The object literal handed to [addDoc] by [handleCreateNewReport]. *)
Definition newReportData (env : Env) (uid : string) : fields :=
  [ ("title", VStr (newReportTitle env));
    ("createdBy", VStr uid);
    ("createdAt", VTime (now env));
    ("currentDiscipline", VStr "D1");
    ("d1_team", VArr [VObj [("name", VStr ("Usuario " ++ substring 0 6 uid)%string);
                            ("role", VStr "Líder")]]);
    ("d2_problem", VObj [("what", VStr ""); ("where", VStr ""); ("when", VStr "");
                         ("who", VStr ""); ("why", VStr ""); ("how", VStr "");
                         ("how_many", VStr "")]);
    ("d3_containment", VArr [emptyAction]);
    ("d4_root_cause",
      VObj [("five_whys", VArr [VStr ""]);
            ("fishbone", VObj [("Manpower", VArr []); ("Machine", VArr []);
                               ("Method", VArr []); ("Material", VArr []);
                               ("Measurement", VArr []); ("Environment", VArr [])])]);
    ("d5_corrective_actions", VArr [emptyAction]);
    ("d6_implementation", VObj [("summary", VStr ""); ("validation_results", VStr "")]);
    ("d7_prevention", VObj [("updated_docs", VStr ""); ("new_standards", VStr "")]);
    ("d8_recognition", VObj [("summary", VStr ""); ("celebration_date", VStr "")]) ].

Definition quiet (w : World) : Outcome := mkOutcome w [] [] (Fulfilled None).

Definition handleCreateNewReport (appId : string) (env : Env) (a : App) (w : World)
  : App * Outcome :=
  if missing (db a) || absent (userId a) then (a, quiet w)
  else
    let uid := default "" (userId a) in
    let data := newReportData env uid in
    let coll := reportsCollectionPath appId in
    match addDoc coll (autoId env) data w with
    | (w', inr id) =>
        (setView workspace (setActiveReportId (Some id) a),
         mkOutcome w' [] [AddDoc coll data] (Fulfilled None))
    | (w', inl e) =>
        (a, mkOutcome w' [("Error creating new report: ", Some e)]
                      [AddDoc coll data] (Fulfilled None))
    end.

Definition handleSelectReport (id : string) (a : App) : App :=
  setView workspace (setActiveReportId (Some id) a).

Definition handleDeleteReport (appId id : string) (a : App) (w : World) : Outcome :=
  if missing (db a) then quiet w
  else
    let path := reportDocPath appId id in
    match deleteDoc path w with
    | (w', None) => mkOutcome w' [] [DeleteDoc path] (Fulfilled None)
    | (w', Some e) =>
        mkOutcome w' [("Error deleting report:", Some e)] [DeleteDoc path]
                  (Fulfilled None)
    end.

Definition handleGoToDashboard (a : App) : App :=
  setActiveReport None (setActiveReportId None (setView dashboard a)).

(** The effect that follows the active report: with no workspace, no handle
    or no identifier it clears [activeReport]; otherwise it subscribes to
    the report's document, whose path it returns. *)
Definition activeReportEffect (appId : string) (a : App) : App * option string :=
  match view a with
  | workspace =>
      if missing (db a) || absent (activeReportId a)
      then (setActiveReport None a, None)
      else (a, Some (reportDocPath appId (default "" (activeReportId a))))
  | dashboard => (setActiveReport None a, None)
  end.

(** The subscription's callback: [snapshot] is the document's data, [None]
    when it does not exist; [id] is [docSnapshot.id]. *)
Definition onActiveReportSnapshot (id : string) (snapshot : option fields) (a : App)
  : App * list LogEntry :=
  match snapshot with
  | Some data => (setActiveReport (Some (spread [("id", VStr id)] data)) a, [])
  | None => (setView dashboard a, [("Report not found", None)])
  end.

(** The list subscription's callback: one entry per document of the
    collection, each [{ id: doc.id, ...doc.data() }]. *)
Definition onReportsSnapshot (querySnapshot : list (string * fields)) (a : App) : App :=
  let reportsData :=
    map (fun d => spread [("id", VStr (fst d))] (snd d)) querySnapshot in
  setIsLoading false (setReports reportsData a).

(* --------------------------------------------------------------------- *)
(* 6. Dashboard                                                           *)
(* --------------------------------------------------------------------- *)

Record DashboardState : Type := mkDashboard {
  modalOpen : bool;
  reportToDelete : option string
}.

Definition Dashboard_init : DashboardState := mkDashboard false None.

Record ClickEvent : Type := mkClick { propagationStopped : bool }.

Definition stopPropagation (e : ClickEvent) : ClickEvent := mkClick true.

Definition openDeleteModal (e : ClickEvent) (reportId : string) (d : DashboardState)
  : ClickEvent * DashboardState :=
  let e := stopPropagation e in
  (e, mkDashboard true (Some reportId)).

Definition confirmDelete (appId : string) (a : App) (d : DashboardState) (w : World)
  : DashboardState * Outcome :=
  let o := if absent (reportToDelete d) then quiet w
           else handleDeleteReport appId (default "" (reportToDelete d)) a w in
  (mkDashboard false None, o).

(** A click handler sees the event and the state of [App] and [Dashboard]. *)
Definition Handler : Type :=
  ClickEvent -> App * DashboardState -> ClickEvent * (App * DashboardState).

(** Bubbling: the target's handler runs first, then those of its ancestors,
    innermost first, until one stops the propagation. *)
Fixpoint bubble (hs : list Handler) (e : ClickEvent) (s : App * DashboardState)
  : App * DashboardState :=
  match hs with
  | [] => s
  | h :: hs' =>
      let (e', s') := h e s in
      if propagationStopped e' then s' else bubble hs' e' s'
  end.

(** The card of a report: [onClick={() => onSelectReport(report.id)}]. *)
Definition card_onClick (reportId : string) : Handler :=
  fun e s => (e, (handleSelectReport reportId (fst s), snd s)).

(** Its delete button: [onClick={(e) => openDeleteModal(e, report.id)}]. *)
Definition deleteButton_onClick (reportId : string) : Handler :=
  fun e s =>
    let (e', d') := openDeleteModal e reportId (snd s) in
    (e', (fst s, d')).

(** The button lies inside the card. *)
Definition click_deleteButton (reportId : string) (s : App * DashboardState)
  : App * DashboardState :=
  bubble [deleteButton_onClick reportId; card_onClick reportId] (mkClick false) s.

Definition click_card (reportId : string) (s : App * DashboardState)
  : App * DashboardState :=
  bubble [card_onClick reportId] (mkClick false) s.

(* --------------------------------------------------------------------- *)
(* 7. Workspace and the discipline navigation                             *)
(* --------------------------------------------------------------------- *)

Record WorkspaceState : Type := mkWorkspace {
  activeDiscipline : value;
  isGeneratingPdf : bool
}.

(** The state of a freshly mounted [Workspace]. *)
Definition Workspace_init : WorkspaceState := mkWorkspace (VStr "D1") false.

(** The effect on [report]: [if (report?.currentDiscipline) ...]. *)
Definition reportEffect (report : option fields) (s : WorkspaceState) : WorkspaceState :=
  match report with
  | None => s
  | Some r =>
      match obj_get "currentDiscipline" r with
      | None => s
      | Some v => if truthy v then mkWorkspace v (isGeneratingPdf s) else s
      end
  end.

Definition handleUpdate (db : option Firestore) (reportId : option string)
    (appId field : string) (v : value) (w : World) : Outcome :=
  if missing db || absent reportId then quiet w
  else
    let path := reportDocPath appId (default "" reportId) in
    match updateDoc path field v w with
    | (w', None) => mkOutcome w' [] [UpdateDoc path field v] (Fulfilled None)
    | (w', Some e) =>
        mkOutcome w' [("Error updating document: ", Some e)]
                  [UpdateDoc path field v] (Fulfilled None)
    end.

Definition handleDeepUpdate (db : option Firestore) (reportId : option string)
    (appId path : string) (v : value) (w : World) : Outcome :=
  if missing db || absent reportId then quiet w
  else
    let docPath := reportDocPath appId (default "" reportId) in
    match updateDoc docPath path v w with
    | (w', None) => mkOutcome w' [] [UpdateDoc docPath path v] (Fulfilled None)
    | (w', Some e) =>
        mkOutcome w' [("Error performing deep update:", Some e)]
                  [UpdateDoc docPath path v] (Fulfilled None)
    end.

(** The eight entries of [DisciplineNav]: identifier and name. *)
Definition disciplines : list (string * string) :=
  [ ("D1", "Formar el Equipo"); ("D2", "Describir el Problema");
    ("D3", "Acciones de Contención"); ("D4", "Análisis de Causa Raíz");
    ("D5", "Acciones Correctivas"); ("D6", "Implementar y Validar");
    ("D7", "Prevenir Recurrencia"); ("D8", "Reconocer al Equipo") ].

Definition discipline_ids : list string := map fst disciplines.

(** [DisciplineNav.handleSelect] as wired by [Workspace]: [setActive] is
    [setActiveDiscipline] and [onUpdate] is
    [(val) => handleUpdate('currentDiscipline', val)]. *)
Definition handleSelect (db : option Firestore) (reportId : option string)
    (appId id : string) (s : WorkspaceState) (w : World) : WorkspaceState * Outcome :=
  (mkWorkspace (VStr id) (isGeneratingPdf s),
   handleUpdate db reportId appId "currentDiscipline" (VStr id) w).

(** Opening a report from the dashboard: the workspace is mounted afresh,
    the active-report effect subscribes, the store delivers the document,
    and the workspace's effect on [report] runs. *)
Definition openReport (appId id : string) (a : App) (w : World)
  : App * WorkspaceState :=
  let a1 := handleSelectReport id a in
  let (a2, sub) := activeReportEffect appId a1 in
  match sub with
  | None => (a2, reportEffect (activeReport a2) Workspace_init)
  | Some path =>
      let (a3, _) := onActiveReportSnapshot id (docs w !! path) a2 in
      (a3, reportEffect (activeReport a3) Workspace_init)
  end.

(* --------------------------------------------------------------------- *)
(* 8. PDF export                                                          *)
(* --------------------------------------------------------------------- *)

(** The members of a report that [generatePdf] reads, with the types the
    creation gives them.  The two maps stay entry lists in key order. *)
Record Member : Type := mkMember { name : string; role : string }.

Record Action : Type := mkAction {
  action : string; responsible : string; date : string; verified : bool
}.

Record RootCause : Type := mkRootCause {
  five_whys : list string;
  fishbone : list (string * list string)
}.

Record Report : Type := mkReport {
  report_id : string;
  title : string;
  d1_team : list Member;
  d2_problem : list (string * string);
  d3_containment : list Action;
  d4_root_cause : RootCause
}.

(** The calls [generatePdf] makes on the jsPDF document, in order. *)
Inductive PdfOp : Type :=
| SetFontSize (n : Z)
| SetFont (style : string)
| Text (s : string) (x y : Z) (align : option string)
| TextLines (ls : list string) (x y : Z)
| AddPage
| AutoTable (startY : Z) (head : list (list string)) (body : list (list string))
| Save (filename : string).

(** The local variable [y] and the calls made so far. *)
Record PdfDoc : Type := mkPdf { y : Z; ops : list PdfOp }.

Definition call (op : PdfOp) (d : PdfDoc) : PdfDoc := mkPdf (y d) (ops d ++ [op]).
Definition setY (y' : Z) (d : PdfDoc) : PdfDoc := mkPdf y' (ops d).

Definition newline : string := String (ascii_of_nat 10) EmptyString.

(** [`${n}`] for an array index. *)
Definition string_of_nat (n : nat) : string := NilZero.string_of_uint (Nat.to_uint n).

(** [Object.entries(o).map(([key, value]) => [key, value])] *)
Definition entries_rows (o : list (string * string)) : list (list string) :=
  map (fun kv => [fst kv; snd kv]) o.

Definition fishbone_rows (fb : list (string * list string)) : list (list string) :=
  map (fun kv => [fst kv; String.concat newline (snd kv)]) fb.

Section Renderer.

(** What the renderer answers: [doc.splitTextToSize(text, width)] and
    [doc.autoTable.previous.finalY] after a table was drawn at [startY]. *)
Variable splitTextToSize : string -> Z -> list string.
Variable finalY : Z -> list (list string) -> list (list string) -> Z.

Definition pageBreak (d : PdfDoc) : PdfDoc :=
  if (250 <? y d)%Z then setY 20 (call AddPage d) else d.

Definition addSection (title : string) (d : PdfDoc) : PdfDoc :=
  let d := pageBreak d in
  let d := call (SetFontSize 14) d in
  let d := call (SetFont "bold") d in
  let d := call (Text title 14 (y d) None) d in
  let d := setY (y d + 7) d in
  let d := call (SetFont "normal") d in
  call (SetFontSize 11) d.

(** [doc.autoTable({ startY: y, head, body, theme: 'grid' })] followed by
    [y = doc.autoTable.previous.finalY + 10]. *)
Definition autoTable (head body : list (list string)) (d : PdfDoc) : PdfDoc :=
  let startY := y d in
  let d := call (AutoTable startY head body) d in
  setY (finalY startY head body + 10) d.

(** The [forEach] over [five_whys], from index [i] on. *)
Fixpoint forEachWhy (i : nat) (whys : list string) (d : PdfDoc) : PdfDoc :=
  match whys with
  | [] => d
  | why :: rest =>
      let splitWhy :=
        splitTextToSize (string_of_nat (i + 1) ++ ". " ++ why)%string 180 in
      let d := call (TextLines splitWhy 16 (y d)) d in
      let d := setY (y d + (Z.of_nat (length splitWhy) * 5 + 2)) d in
      forEachWhy (S i) rest d
  end.

Definition generatePdf (report : Report) : list PdfOp :=
  let d := mkPdf 0 [] in
  (* Title *)
  let d := call (SetFontSize 22) d in
  let d := call (Text "Informe 8D" 105 20 (Some "center")) d in
  let d := call (SetFontSize 16) d in
  let d := call (Text (title report) 105 30 (Some "center")) d in
  let d := setY 45 d in
  (* D1: Team *)
  let d := addSection "D1: Formar el Equipo" d in
  let d := autoTable [["Nombre"; "Rol"]]
                     (map (fun m => [name m; role m]) (d1_team report)) d in
  (* D2: Problem *)
  let d := addSection "D2: Describir el Problema (5W2H)" d in
  let d2_body := entries_rows (d2_problem report) in
  let d := autoTable [["Pregunta"; "Descripción"]] d2_body d in
  (* D3: Containment *)
  let d := addSection "D3: Acciones de Contención" d in
  let d := autoTable [["Acción"; "Responsable"; "Fecha"]]
                     (map (fun a => [action a; responsible a; date a])
                          (d3_containment report)) d in
  (* D4: Root Cause *)
  let d := addSection "D4: Análisis de Causa Raíz" d in
  let d := call (SetFont "bold") d in
  let d := call (Text "5 Porqués:" 14 (y d) None) d in
  let d := setY (y d + 7) d in
  let d := call (SetFont "normal") d in
  let d := forEachWhy 0 (five_whys (d4_root_cause report)) d in
  let d := pageBreak d in
  let d := setY (y d + 5) d in
  let d := call (SetFont "bold") d in
  let d := call (Text "Diagrama de Ishikawa:" 14 (y d) None) d in
  let d := setY (y d + 7) d in
  let d := call (SetFont "normal") d in
  let fishbone_body := fishbone_rows (fishbone (d4_root_cause report)) in
  let d := autoTable [["Categoría"; "Causas Potenciales"]] fishbone_body d in
  let d := call (Save ("Informe_8D_" ++ report_id report ++ ".pdf")%string) d in
  ops d.

(** The line arrays drawn, in order: only the [five_whys] loop draws
    arrays of lines, every other text is a single string. *)
Definition lineArrays (l : list PdfOp) : list (list string) :=
  flat_map (fun op => match op with TextLines ls _ _ => [ls] | _ => [] end) l.

(** The tables drawn, in order, as (head, body). *)
Definition tables (l : list PdfOp) : list (list (list string) * list (list string)) :=
  flat_map (fun op => match op with AutoTable _ h b => [(h, b)] | _ => [] end) l.

End Renderer.

(* --------------------------------------------------------------------- *)
(* 9. Vocabulary of the statements                                        *)
(* --------------------------------------------------------------------- *)

(** Two paths part ways: at some segment they differ, so neither addresses
    the other's field, a part of it, or a map around it. *)
Fixpoint diverge (p q : list string) : bool :=
  match p, q with
  | k1 :: p', k2 :: q' => if String.eqb k1 k2 then diverge p' q' else true
  | _, _ => false
  end.

(** The caller of an [async] handler is told of a failure when the promise
    rejects or is fulfilled with a value, or when an error is logged. *)
Definition reports_failure (o : Outcome) : Prop :=
  settled o <> Fulfilled None \/ console o <> [].

(** The fishbone categories, in the order of the creation literal and of
    [fishboneCategories] in the D4 editor. *)
Definition fishboneCategories : list (string * string) :=
  [ ("Manpower", "Mano de Obra"); ("Machine", "Maquinaria"); ("Method", "Método");
    ("Material", "Materiales"); ("Measurement", "Medición");
    ("Environment", "Medio Ambiente") ].

Definition categories : list string := map fst fishboneCategories.

(** [fb[category]] on the typed fishbone. *)
Fixpoint causes_of (category : string) (fb : list (string * list string))
  : option (list string) :=
  match fb with
  | [] => None
  | (c, causes) :: fb' => if String.eqb category c then Some causes else causes_of category fb'
  end.

(** The fishbone of the export example: [Machine: ["worn bearing"]], every
    other category empty. *)
Definition worn_bearing_only (fb : list (string * list string)) : Prop :=
  forall c, In c categories ->
    causes_of c fb = Some (if String.eqb c "Machine" then ["worn bearing"] else []).

Definition fishboneTable (l : list PdfOp) : option (list (list string) * list (list string)) :=
  nth_error (tables l) 3.

(** Sample data for the closed statements. *)
Definition sample_env : Env := mkEnv "1/11/2026" 1793520000 "r1".
Definition sample_app : App :=
  mkApp (Some firestore) (Some "u123456789") true dashboard [] None None false.
Definition empty_world : World := mkWorld ∅ true.
Definition sample_world : World :=
  world (snd (handleCreateNewReport "default-8d-app" sample_env sample_app empty_world)).
Definition offline_world : World := mkWorld (docs sample_world) false.

Definition sample_report (fb : list (string * list string)) : Report :=
  mkReport "r1" "Informe" [mkMember "Ana" "Líder"]
           [("what", "ruido"); ("where", "línea 3")]
           [mkAction "inspeccionar" "Luis" "2026-11-02" false]
           (mkRootCause ["no calibration"; "sensor drift"; "no maintenance schedule"] fb).

Definition alphabetical_fishbone : list (string * list string) :=
  [ ("Environment", []); ("Machine", ["worn bearing"]); ("Manpower", []);
    ("Material", []); ("Measurement", []); ("Method", []) ].

Definition creation_order_fishbone : list (string * list string) :=
  [ ("Manpower", []); ("Machine", ["worn bearing"]); ("Method", []);
    ("Material", []); ("Measurement", []); ("Environment", []) ].

Definition two_causes_fishbone : list (string * list string) :=
  [ ("Manpower", []); ("Machine", ["worn bearing"; "loose belt"]); ("Method", []);
    ("Material", []); ("Measurement", []); ("Environment", []) ].

Definition one_line (s : string) (w : Z) : list string := [s].
Definition below (startY : Z) (head body : list (list string)) : Z :=
  (startY + 8 * Z.of_nat (length head + length body))%Z.

(** The numbered texts of a list of whys, counting from index [i]. *)
Fixpoint numbered (i : nat) (whys : list string) : list string :=
  match whys with
  | [] => []
  | why :: rest => (string_of_nat (i + 1) ++ ". " ++ why)%string :: numbered (S i) rest
  end.

(* --------------------------------------------------------------------- *)
(* 10. Script loader and the export button                                *)
(* --------------------------------------------------------------------- *)

(** The module-level cache [loadedScripts] and the script elements
    appended to [document.body], by [src], oldest first. *)
Record Page : Type := mkPage {
  loadedScripts : gset string;
  scripts : list string
}.

(** How a loader promise settles: [Error] carries the message. *)
Inductive Loading : Type :=
| Resolved
| Error (message : string).

(** [loadScript(src)]; [fetches src] tells whether the browser loads the
    script ([onload]) or fails to ([onerror]). *)
Definition loadScript (fetches : string -> bool) (src : string) (p : Page)
  : Page * Loading :=
  if bool_decide (src ∈ loadedScripts p) then (p, Resolved)
  else
    let p := mkPage (loadedScripts p) (scripts p ++ [src]) in
    if fetches src
    then (mkPage ({[src]} ∪ loadedScripts p) (scripts p), Resolved)
    else (p, Error ("Script load error for " ++ src)%string).

Definition jspdf_src : string :=
  "https://cdnjs.cloudflare.com/ajax/libs/jspdf/2.5.1/jspdf.umd.min.js".
Definition autotable_src : string :=
  "https://cdnjs.cloudflare.com/ajax/libs/jspdf-autotable/3.8.2/jspdf.plugin.autotable.min.js".

(** [Promise.all] of two loads: both are started, and the result is a
    rejection as soon as one of them rejects.  When both fail, the model
    reports the rejection of the first in the array; which of two failures
    the browser reports first is not modelled. *)
Definition loadBoth (fetches : string -> bool) (p : Page) : Page * Loading :=
  let (p1, r1) := loadScript fetches jspdf_src p in
  let (p2, r2) := loadScript fetches autotable_src p1 in
  (p2, match r1 with Resolved => r2 | Error m => Error m end).

Record Exported : Type := mkExported {
  ws_after : WorkspaceState;
  page_after : Page;
  export_log : list (string * string);
  pdf : option (list PdfOp)
}.

(** [handleGeneratePdf]: the indicator is raised, the two scripts are
    awaited, the report is exported; a failed load is logged; [finally] the
    indicator is lowered. *)
Definition handleGeneratePdf (fetches : string -> bool)
    (splitTextToSize : string -> Z -> list string)
    (finalY : Z -> list (list string) -> list (list string) -> Z)
    (report : Report) (s : WorkspaceState) (p : Page) : Exported :=
  let s := mkWorkspace (activeDiscipline s) true in
  match loadBoth fetches p with
  | (p', Resolved) =>
      mkExported (mkWorkspace (activeDiscipline s) false) p' []
                 (Some (generatePdf splitTextToSize finalY report))
  | (p', Error m) =>
      mkExported (mkWorkspace (activeDiscipline s) false) p'
                 [("Failed to load PDF generation scripts:", m)] None
  end.

(* --------------------------------------------------------------------- *)
(* 11. The discipline editors                                             *)
(* --------------------------------------------------------------------- *)

(** [data.filter((_, i) => keep(i))], counting from [i]. *)
Fixpoint filter_index {A : Type} (keep : nat -> bool) (i : nat) (l : list A) : list A :=
  match l with
  | [] => []
  | x :: rest =>
      if keep i then x :: filter_index keep (S i) rest
      else filter_index keep (S i) rest
  end.

(** [newData = [...data]; newData[index][field] = value]: [data] is an
    array of objects; with [index] out of range [newData[index]] is
    [undefined] and the assignment throws ([None]). *)
Definition item_change (index : nat) (field : string) (v : value) (data : list fields)
  : option (list fields) :=
  match data !! index with
  | None => None
  | Some item => Some (<[index := obj_set field v item]> data)
  end.

Definition item_remove {A : Type} (index : nat) (data : list A) : list A :=
  filter_index (fun i => negb (Nat.eqb i index)) 0 data.

Definition array_of (data : list fields) : value := VArr (map VObj data).

(** D1_Team *)
Definition D1_handleMemberChange := item_change.
Definition D1_addMember (data : list fields) : list fields :=
  data ++ [[("name", VStr ""); ("role", VStr "")]].
Definition D1_removeMember (index : nat) (data : list fields) : list fields :=
  item_remove index data.

(** D3_ContainmentActions *)
Definition D3_handleActionChange := item_change.
Definition D3_addAction (data : list fields) : list fields :=
  data ++ [[("action", VStr ""); ("responsible", VStr ""); ("date", VStr "");
            ("verified", VBool false)]].
Definition D3_removeAction (index : nat) (data : list fields) : list fields :=
  item_remove index data.

(** D5_CorrectiveActions *)
Definition D5_handleActionChange := item_change.
Definition D5_addAction (data : list fields) : list fields :=
  data ++ [[("action", VStr ""); ("responsible", VStr ""); ("date", VStr "");
            ("verified", VBool false)]].
Definition D5_removeAction (index : nat) (data : list fields) : list fields :=
  item_remove index data.

(** D2_ProblemDescription: the keys of [fields], in order. *)
Definition D2_fields : list (string * string) :=
  [ ("what", "¿Qué está mal?"); ("where", "¿Dónde se observa?");
    ("when", "¿Cuándo ocurre?"); ("who", "¿A quién afecta?");
    ("why", "¿Por qué es un problema?"); ("how", "¿Cómo ocurre?");
    ("how_many", "¿Cuántas unidades/instancias están afectadas?") ].

Definition D2_keys : list string := map fst D2_fields.

(** The [onChange] of the input of [key]:
    [onUpdate(`d2_problem.${field.key}`, e.target.value)], where [onUpdate]
    is [handleDeepUpdate]. *)
Definition D2_onChange (db : option Firestore) (reportId : option string)
    (appId key text : string) (w : World) : Outcome :=
  handleDeepUpdate db reportId appId ("d2_problem." ++ key)%string (VStr text) w.

(** The value shown in the input: [data[field.key] || '']. *)
Definition D2_shown (key : string) (data : fields) : value :=
  match obj_get key data with
  | Some v => if truthy v then v else VStr ""
  | None => VStr ""
  end.

(** D4_RootCauseAnalysis, the whys: [newWhys[index] = value] replaces an
    entry and, at [index = length], appends one; further out it would leave
    holes, which no document can hold ([None]). *)
Definition D4_handleWhyChange (index : nat) (v : value) (whys : list value)
  : option (list value) :=
  if Nat.ltb index (length whys) then Some (<[index := v]> whys)
  else if Nat.eqb index (length whys) then Some (whys ++ [v])
  else None.

Definition D4_addWhy (whys : list value) : list value := whys ++ [VStr ""].

(** D4_RootCauseAnalysis, the fishbone: [fb] is [data.fishbone], an object
    of arrays.  [newFishbone[category]] of a missing category is
    [undefined], and using it throws ([None]); a category that holds
    something else than an array is no fishbone and gives [None] as well. *)
Definition D4_handleFishboneChange (category : string) (index : nat) (v : value)
    (fb : fields) : option fields :=
  match obj_get category fb with
  | Some (VArr causes) =>
      match D4_handleWhyChange index v causes with
      | Some causes' => Some (obj_set category (VArr causes') fb)
      | None => None
      end
  | _ => None
  end.

Definition D4_addFishboneCause (category : string) (fb : fields) : option fields :=
  match obj_get category fb with
  | Some (VArr causes) => Some (obj_set category (VArr (causes ++ [VStr ""])) fb)
  | _ => None
  end.

Definition D4_removeFishboneCause (category : string) (index : nat) (fb : fields)
  : option fields :=
  match obj_get category fb with
  | Some (VArr causes) => Some (obj_set category (VArr (item_remove index causes)) fb)
  | _ => None
  end.

(** Calling the one-parameter arrow function [(val) => f(val)] with two
    arguments: the second one is dropped. *)
Definition call_unary {R : Type} (f : value -> R) (arg1 arg2 : value) : R := f arg1.

(** The [onUpdate] that [Workspace] hands to D6, D7 and D8:
    [(val) => handleDeepUpdate(field, val)]. *)
Definition whole_field_onUpdate (db : option Firestore) (reportId : option string)
    (appId field : string) (w : World) : value -> Outcome :=
  fun val => handleDeepUpdate db reportId appId field val w.

(** D6_Implementation, the [onChange] of an input:
    [onUpdate('d6_implementation', { ...data, [key]: e.target.value })]. *)
Definition D6_onChange (onUpdate : value -> Outcome) (key text : string) (data : fields)
  : Outcome :=
  call_unary onUpdate (VStr "d6_implementation")
             (VObj (spread data [(key, VStr text)])).

Definition D7_onChange (onUpdate : value -> Outcome) (key text : string) (data : fields)
  : Outcome :=
  call_unary onUpdate (VStr "d7_prevention")
             (VObj (spread data [(key, VStr text)])).

Definition D8_onChange (onUpdate : value -> Outcome) (key text : string) (data : fields)
  : Outcome :=
  call_unary onUpdate (VStr "d8_recognition")
             (VObj (spread data [(key, VStr text)])).

(* --------------------------------------------------------------------- *)
(* 12. The application as a transition system                             *)
(* --------------------------------------------------------------------- *)

(** After a handler the active-report effect runs again and, when it
    subscribes, the store delivers the document; when the document is gone
    the view falls back to the dashboard and the effect, run once more,
    clears the report. *)
Definition refresh (appId : string) (a : App) (w : World) : App :=
  let (a1, sub) := activeReportEffect appId a in
  match sub with
  | None => a1
  | Some path =>
      let (a2, _) :=
        onActiveReportSnapshot (default "" (activeReportId a1)) (docs w !! path) a1 in
      match docs w !! path with
      | Some _ => a2
      | None => fst (activeReportEffect appId a2)
      end
  end.

(** What can happen: the user acts on the screen that is shown, or the
    store changes under the application. *)
Inductive Event : Type :=
| EvCreate (env : Env)
| EvSelect (id : string)
| EvDelete (id : string)
| EvGoToDashboard
| EvEdit (path : string) (v : value)
| EvStore (w' : World).

Definition enabled (a : App) (e : Event) : bool :=
  match e, view a with
  | EvCreate _, dashboard => true
  | EvSelect _, dashboard => true
  | EvDelete _, dashboard => true
  | EvGoToDashboard, workspace => negb (missing (activeReport a))
  | EvEdit _ _, workspace => negb (missing (activeReport a))
  | EvStore _, _ => true
  | _, _ => false
  end.

Definition step (appId : string) (e : Event) (s : App * World) : App * World :=
  let (a, w) := s in
  if negb (enabled a e) then s
  else
    match e with
    | EvCreate env =>
        let (a', o) := handleCreateNewReport appId env a w in
        (refresh appId a' (world o), world o)
    | EvSelect id => (refresh appId (handleSelectReport id a) w, w)
    | EvDelete id =>
        let o := handleDeleteReport appId id a w in
        (refresh appId a (world o), world o)
    | EvGoToDashboard => (refresh appId (handleGoToDashboard a) w, w)
    | EvEdit path v =>
        let o := handleDeepUpdate (db a) (activeReportId a) appId path v w in
        (refresh appId a (world o), world o)
    | EvStore w' => (refresh appId a w', w')
    end.


(** What is shown is the stored document of the active report. *)
Definition shows_active_report (appId : string) (s : App * World) : Prop :=
  match activeReport (fst s) with
  | None => True
  | Some r =>
      view (fst s) = workspace /\ db (fst s) <> None
      /\ exists id data,
           activeReportId (fst s) = Some id /\ id <> ""
           /\ docs (snd s) !! reportDocPath appId id = Some data
           /\ r = spread [("id", VStr id)] data
  end.

(* --------------------------------------------------------------------- *)
(* 13. Start-up                                                           *)
(* --------------------------------------------------------------------- *)

(** The initialization effect: [initialized] tells whether [initializeApp],
    [getAuth] and [getFirestore] return; when one of them throws, the error
    is logged and the application is declared ready as it is. *)
Definition initFirebase (initialized : bool) (a : App) : App * list LogEntry :=
  if initialized then (setDb (Some firestore) a, [])
  else (setIsAuthReady true a, [("Error initializing Firebase:", None)]).

(** The [onAuthStateChanged] callback; [user] is the signed-in user's
    [uid], [None] when there is no session.  The second component tells
    whether [signInAnonymously] is called. *)
Definition onAuthStateChanged (user : option string) (a : App) : App * bool :=
  match user with
  | Some uid => (setIsAuthReady true (setUserId (Some uid) a), false)
  | None => (setIsAuthReady true a, true)
  end.

(** The effect that lists the reports: it waits for the authentication and
    the storage handle, then raises the loading flag and subscribes to the
    collection, whose path it returns. *)
Definition reportsEffect (appId : string) (a : App) : App * option string :=
  if negb (isAuthReady a) || missing (db a) then (a, None)
  else (setIsLoading true a, Some (reportsCollectionPath appId)).

(** The error callback of the list subscription. *)
Definition onReportsError (e : StoreError) (a : App) : App * list LogEntry :=
  (setIsLoading false a, [("Error fetching reports:", Some e)]).

(** What the dashboard shows under its heading. *)
Inductive DashboardBody : Type :=
| LoadingReports
| NoReports
| Cards (rs : list fields).

Definition Dashboard_body (a : App) : DashboardBody :=
  if isLoading a then LoadingReports
  else match reports a with
       | [] => NoReports
       | rs => Cards rs
       end.

(** The single strings drawn and the files saved, in order. *)
Definition texts (l : list PdfOp) : list string :=
  flat_map (fun op => match op with Text s _ _ _ => [s] | _ => [] end) l.

Definition saves (l : list PdfOp) : list string :=
  flat_map (fun op => match op with Save f => [f] | _ => [] end) l.

Definition pageBreaks (l : list PdfOp) : nat :=
  length (flat_map (fun op => match op with AddPage => [tt] | _ => [] end) l).

(* ===================================================================== *)
(* Theorems                                                               *)
(* ===================================================================== *)

Section Objects.

Implicit Types (k : string) (v : value) (fs : fields).

Lemma obj_get_set_eq k v fs : obj_get k (obj_set k v fs) = Some v.
Proof.
  induction fs as [|[k' v'] fs IH]; simpl.
  - now rewrite String.eqb_refl.
  - destruct (String.eqb k k') eqn:E; simpl.
    + now rewrite String.eqb_refl.
    + now rewrite E.
Qed.

Lemma obj_get_set_ne k k' v fs :
  k <> k' -> obj_get k' (obj_set k v fs) = obj_get k' fs.
Proof.
  intros Hne. induction fs as [|[k0 v0] fs IH]; simpl.
  - destruct (String.eqb k' k) eqn:E; [|reflexivity].
    apply String.eqb_eq in E. congruence.
  - destruct (String.eqb k k0) eqn:E; simpl.
    + apply String.eqb_eq in E. subst k0.
      destruct (String.eqb k' k) eqn:E'; [|reflexivity].
      apply String.eqb_eq in E'. congruence.
    + now rewrite IH.
Qed.

Lemma keys_obj_set k v fs :
  keys (obj_set k v fs) =
  if existsb (String.eqb k) (keys fs) then keys fs else keys fs ++ [k].
Proof.
  unfold keys. induction fs as [|[k' v'] fs IH]; simpl; [reflexivity|].
  destruct (String.eqb k k') eqn:E; simpl.
  - apply String.eqb_eq in E. now subst.
  - rewrite IH. now destruct (existsb _ _).
Qed.

Lemma obj_get_None_keys k fs : obj_get k fs = None <-> k ∉ keys fs.
Proof.
  unfold keys. induction fs as [|[k' v'] fs IH]; simpl.
  - split; [intros _; apply not_elem_of_nil | reflexivity].
  - rewrite not_elem_of_cons. destruct (String.eqb k k') eqn:E.
    + apply String.eqb_eq in E. subst. split; [discriminate | tauto].
    + apply String.eqb_neq in E. rewrite IH. tauto.
Qed.

Lemma NoDup_keys_obj_set k v fs : NoDup (keys fs) -> NoDup (keys (obj_set k v fs)).
Proof.
  intros H. rewrite keys_obj_set.
  destruct (existsb (String.eqb k) (keys fs)) eqn:E; [exact H|].
  apply NoDup_app. split; [exact H|]. split; [|apply NoDup_singleton].
  intros x Hx Hx'. apply list_elem_of_singleton in Hx'. subst x.
  assert (existsb (String.eqb k) (keys fs) = true); [|congruence].
  apply existsb_exists. exists k. split; [now apply list_elem_of_In | apply String.eqb_refl].
Qed.

End Objects.

Section Paths.

Implicit Types (k : string) (v : value) (fs : fields) (p q : list string).

Lemma split_dots_nonempty (s : string) : split_dots s <> [].
Proof.
  destruct s as [|c s]; simpl; [discriminate|].
  destruct (Ascii.eqb c "."); [discriminate|].
  destruct (split_dots s); discriminate.
Qed.

Lemma set_path_cons2 k k' p v fs :
  set_path (k :: k' :: p) v fs =
  obj_set k (VObj (set_path (k' :: p) v
               (match obj_get k fs with Some (VObj sub) => sub | _ => [] end))) fs.
Proof. reflexivity. Qed.

Lemma get_path_cons2 k k' p fs :
  get_path (k :: k' :: p) fs =
  match obj_get k fs with
  | Some (VObj sub) => get_path (k' :: p) sub
  | _ => None
  end.
Proof. reflexivity. Qed.

(** The addressed field reads back as the value written. *)
Lemma get_set_path_same p v fs : p <> [] -> get_path p (set_path p v fs) = Some v.
Proof.
  revert fs. induction p as [|k p IH]; intros fs Hp; [congruence|].
  destruct p as [|k' p'].
  - simpl. now rewrite obj_get_set_eq.
  - rewrite set_path_cons2, get_path_cons2, obj_get_set_eq.
    apply IH. discriminate.
Qed.

(** The top-level fields other than the head of the path are untouched. *)
Lemma obj_get_set_path_ne k k' p v fs :
  k <> k' -> obj_get k' (set_path (k :: p) v fs) = obj_get k' fs.
Proof.
  intros Hne. destruct p as [|k1 p1].
  - simpl. now apply obj_get_set_ne.
  - rewrite set_path_cons2. now apply obj_get_set_ne.
Qed.

Lemma get_path_head k p fs fs' :
  obj_get k fs' = obj_get k fs -> get_path (k :: p) fs' = get_path (k :: p) fs.
Proof. intros H. simpl. now rewrite H. Qed.

(** A path that parts ways with the written one reads what it read before. *)
Lemma get_set_path_diverge p q v fs :
  diverge p q = true -> get_path q (set_path p v fs) = get_path q fs.
Proof.
  revert q fs. induction p as [|k p IH]; intros q fs Hd; [discriminate|].
  destruct q as [|k2 q]; [discriminate|].
  simpl in Hd. destruct (String.eqb k k2) eqn:E.
  - apply String.eqb_eq in E. subst k2.
    destruct p as [|k1 p1]; [discriminate|].
    destruct q as [|k3 q3]; [discriminate|].
    rewrite set_path_cons2, !get_path_cons2, obj_get_set_eq, (IH _ _ Hd).
    destruct (obj_get k fs) as [[| | | |sub]|]; reflexivity.
  - apply String.eqb_neq in E.
    apply get_path_head. now apply obj_get_set_path_ne.
Qed.

(** The update keeps the document's keys in place; a new top-level key
    goes last. *)
Lemma keys_set_path k p v fs :
  keys (set_path (k :: p) v fs) =
  if existsb (String.eqb k) (keys fs) then keys fs else keys fs ++ [k].
Proof.
  destruct p as [|k1 p1].
  - simpl. apply keys_obj_set.
  - rewrite set_path_cons2. apply keys_obj_set.
Qed.

End Paths.

Section Updates.

Variables (appId reportId : string) (w : World).

Lemma absent_Some_false (s : string) : s <> "" -> absent (Some s) = false.
Proof. intros H. simpl. now apply String.eqb_neq. Qed.

(** An accepted update: what [updateDoc] does to the store. *)
Lemma updateDoc_accepted docPath field v fs :
  valid_field_path field = true -> online w = true ->
  docs w !! docPath = Some fs ->
  updateDoc docPath field v w =
  (mkWorld (<[docPath := set_path (split_dots field) v fs]> (docs w)) true, None).
Proof.
  intros Hv Ho Hd. unfold updateDoc. now rewrite Hv, Ho, Hd.
Qed.

(** A rejected update writes nothing. *)
Lemma updateDoc_rejected docPath field v e :
  snd (updateDoc docPath field v w) = Some e -> fst (updateDoc docPath field v w) = w.
Proof.
  unfold updateDoc.
  destruct (valid_field_path field); simpl; [|reflexivity].
  destruct (online w); simpl; [|reflexivity].
  destruct (docs w !! docPath); simpl; [discriminate | reflexivity].
Qed.

End Updates.

(** C2: for every report document, every valid field path and every value,
    a deep update leaves the addressed field equal to the new value, leaves
    every field on a path that parts ways with it (in particular every other
    top-level field) as it was, keeps the document's keys in place, and
    touches no other document. *)
Theorem deep_update_frame (appId reportId path : string) (v : value) (w : World)
    (fs : fields) :
  reportId <> "" -> online w = true -> valid_field_path path = true ->
  docs w !! reportDocPath appId reportId = Some fs ->
  let o := handleDeepUpdate (Some firestore) (Some reportId) appId path v w in
  exists fs',
    docs (world o) !! reportDocPath appId reportId = Some fs'
    /\ get_path (split_dots path) fs' = Some v
    /\ (forall q, diverge (split_dots path) q = true -> get_path q fs' = get_path q fs)
    /\ (forall k, hd_error (split_dots path) <> Some k -> obj_get k fs' = obj_get k fs)
    /\ (forall k, In k (keys fs) -> In k (keys fs'))
    /\ (forall other, other <> reportDocPath appId reportId ->
          docs (world o) !! other = docs w !! other)
    /\ console o = [].
Proof.
  intros Hid Hon Hvalid Hdoc o. subst o. unfold handleDeepUpdate.
  rewrite (absent_Some_false _ Hid). simpl.
  rewrite (updateDoc_accepted w _ _ v fs Hvalid Hon Hdoc). simpl.
  exists (set_path (split_dots path) v fs).
  pose proof (split_dots_nonempty path) as Hne.
  repeat split.
  - apply lookup_insert_eq.
  - now apply get_set_path_same.
  - intros q Hq. now apply get_set_path_diverge.
  - intros k Hk. destruct (split_dots path) as [|k0 p]; [congruence|].
    apply obj_get_set_path_ne. simpl in Hk. congruence.
  - intros k Hk. destruct (split_dots path) as [|k0 p]; [congruence|].
    rewrite keys_set_path. destruct (existsb _ _); [exact Hk|].
    apply in_or_app. now left.
  - intros other Hother. now apply lookup_insert_ne.
Qed.

Lemma deep_update_frame_witness :
  exists fs',
    docs (world (handleDeepUpdate (Some firestore) (Some "r1") "default-8d-app"
                   "d2_problem.where" (VStr "line 3") sample_world))
      !! reportDocPath "default-8d-app" "r1" = Some fs'
    /\ get_path ["d2_problem"; "where"] fs' = Some (VStr "line 3").
Proof.
  destruct (deep_update_frame "default-8d-app" "r1" "d2_problem.where" (VStr "line 3")
              sample_world (newReportData sample_env "u123456789"))
    as (fs' & H1 & H2 & _).
  - discriminate.
  - reflexivity.
  - reflexivity.
  - vm_compute. reflexivity.
  - exists fs'. split; [exact H1 | exact H2].
Defined.

Section Creation.

Lemma string_app_assoc (a b c : string) : ((a ++ b) ++ c = a ++ (b ++ c))%string.
Proof.
  induction a as [|x a IH]; [reflexivity|].
  change (String x ((a ++ b) ++ c) = String x (a ++ (b ++ c)))%string.
  now rewrite IH.
Qed.

(** The document created under the collection is the one the workspace
    addresses by the report's identifier. *)
Lemma collection_doc_path (appId id : string) :
  (reportsCollectionPath appId ++ "/" ++ id)%string = reportDocPath appId id.
Proof.
  unfold reportsCollectionPath, reportDocPath.
  rewrite !string_app_assoc. reflexivity.
Qed.

Variables (appId : string) (env : Env) (a : App) (w : World).

Lemma create_guard_closed :
  missing (db a) || absent (userId a) = true ->
  handleCreateNewReport appId env a w = (a, quiet w).
Proof. intros H. unfold handleCreateNewReport. now rewrite H. Qed.

Lemma create_accepted (uid : string) :
  db a = Some firestore -> userId a = Some uid -> uid <> "" -> online w = true ->
  handleCreateNewReport appId env a w =
  (setView workspace (setActiveReportId (Some (autoId env)) a),
   mkOutcome
     (mkWorld (<[reportDocPath appId (autoId env) := newReportData env uid]> (docs w)) true)
     [] [AddDoc (reportsCollectionPath appId) (newReportData env uid)]
     (Fulfilled None)).
Proof.
  intros Hdb Hu Hne Hon. unfold handleCreateNewReport, addDoc.
  rewrite Hdb, Hu, (absent_Some_false _ Hne), Hon. simpl.
  now rewrite collection_doc_path.
Qed.

Lemma create_rejected :
  missing (db a) || absent (userId a) = false -> online w = false ->
  handleCreateNewReport appId env a w =
  (a, mkOutcome w [("Error creating new report: ", Some Unavailable)]
        [AddDoc (reportsCollectionPath appId) (newReportData env (default "" (userId a)))]
        (Fulfilled None)).
Proof.
  intros Hg Hoff. unfold handleCreateNewReport, addDoc. now rewrite Hg, Hoff.
Qed.

End Creation.

(** C1: every successful creation stores a document that has all eight
    discipline fields with their default shapes: the seven empty 5W2H
    strings, [five_whys] seeded with one empty string, the six fishbone
    categories each with no cause, and [currentDiscipline] at D1. *)
Theorem create_report_skeleton (appId : string) (env : Env) (a : App) (w : World)
    (uid : string) :
  db a = Some firestore -> userId a = Some uid -> uid <> "" -> online w = true ->
  let o := snd (handleCreateNewReport appId env a w) in
  exists doc,
    docs (world o) !! reportDocPath appId (autoId env) = Some doc
    /\ obj_get "currentDiscipline" doc = Some (VStr "D1")
    /\ obj_get "d1_team" doc =
         Some (VArr [VObj [("name", VStr ("Usuario " ++ substring 0 6 uid)%string);
                           ("role", VStr "Líder")]])
    /\ obj_get "d2_problem" doc =
         Some (VObj [("what", VStr ""); ("where", VStr ""); ("when", VStr "");
                     ("who", VStr ""); ("why", VStr ""); ("how", VStr "");
                     ("how_many", VStr "")])
    /\ obj_get "d3_containment" doc =
         Some (VArr [VObj [("action", VStr ""); ("responsible", VStr "");
                           ("date", VStr ""); ("verified", VBool false)]])
    /\ get_path ["d4_root_cause"; "five_whys"] doc = Some (VArr [VStr ""])
    /\ get_path ["d4_root_cause"; "fishbone"] doc =
         Some (VObj [("Manpower", VArr []); ("Machine", VArr []); ("Method", VArr []);
                     ("Material", VArr []); ("Measurement", VArr []);
                     ("Environment", VArr [])])
    /\ (exists rc, obj_get "d4_root_cause" doc = Some (VObj rc)
                   /\ keys rc = ["five_whys"; "fishbone"])
    /\ obj_get "d5_corrective_actions" doc =
         Some (VArr [VObj [("action", VStr ""); ("responsible", VStr "");
                           ("date", VStr ""); ("verified", VBool false)]])
    /\ obj_get "d6_implementation" doc =
         Some (VObj [("summary", VStr ""); ("validation_results", VStr "")])
    /\ obj_get "d7_prevention" doc =
         Some (VObj [("updated_docs", VStr ""); ("new_standards", VStr "")])
    /\ obj_get "d8_recognition" doc =
         Some (VObj [("summary", VStr ""); ("celebration_date", VStr "")]).
Proof.
  intros Hdb Hu Hne Hon o. subst o.
  rewrite (create_accepted appId env a w uid Hdb Hu Hne Hon). simpl.
  exists (newReportData env uid). split; [apply lookup_insert_eq|].
  repeat split; try reflexivity.
  eexists. split; reflexivity.
Qed.

Lemma create_report_skeleton_witness :
  exists doc,
    docs sample_world !! reportDocPath "default-8d-app" "r1" = Some doc
    /\ get_path ["d4_root_cause"; "five_whys"] doc = Some (VArr [VStr ""]).
Proof.
  destruct (create_report_skeleton "default-8d-app" sample_env sample_app empty_world
              "u123456789")
    as (doc & H1 & _ & _ & _ & _ & H5 & _); try reflexivity; try discriminate.
  exists doc. split; [exact H1 | exact H5].
Defined.

(** C8 (as the code has it): with no storage handle or no identity the
    creation does nothing at all: no write, no log, no change of screen; on
    success the handler itself records the new identifier as the active
    report and switches to the workspace, and its promise is fulfilled with
    [undefined]; when the store rejects, the screen stays as it is. *)
Theorem create_guard_and_navigation (appId : string) (env : Env) (a : App) (w : World) :
  let r := handleCreateNewReport appId env a w in
  (missing (db a) || absent (userId a) = true ->
     fst r = a /\ world (snd r) = w /\ issued (snd r) = []
     /\ console (snd r) = [] /\ settled (snd r) = Fulfilled None)
  /\ (missing (db a) || absent (userId a) = false -> online w = true ->
        activeReportId (fst r) = Some (autoId env) /\ view (fst r) = workspace
        /\ is_Some (docs (world (snd r)) !! reportDocPath appId (autoId env))
        /\ settled (snd r) = Fulfilled None)
  /\ (missing (db a) || absent (userId a) = false -> online w = false ->
        fst r = a /\ world (snd r) = w /\ settled (snd r) = Fulfilled None).
Proof.
  intros r. subst r. repeat split.
  all: try (rewrite create_guard_closed by assumption; reflexivity).
  all: try (rewrite create_rejected by assumption; reflexivity).
  all: destruct (db a) as [[]|] eqn:Hdb; try discriminate;
       destruct (userId a) as [uid|] eqn:Hu; try discriminate;
       simpl in *; apply String.eqb_neq in H;
       rewrite (create_accepted appId env a w uid Hdb Hu H H0); try reflexivity.
  simpl. rewrite lookup_insert_eq. eauto.
Qed.

Lemma create_guard_and_navigation_witness :
  (fst (handleCreateNewReport "default-8d-app" sample_env App_init empty_world) = App_init)
  /\ view (fst (handleCreateNewReport "default-8d-app" sample_env sample_app empty_world))
     = workspace.
Proof.
  split.
  - exact (proj1 (proj1 (create_guard_and_navigation
                           "default-8d-app" sample_env App_init empty_world) eq_refl)).
  - exact (proj1 (proj2 (proj1 (proj2 (create_guard_and_navigation
                           "default-8d-app" sample_env sample_app empty_world))
                           eq_refl eq_refl))).
Defined.

(** C8, the claim as stated fails: a successful creation does not hand the
    new identifier back, its promise is fulfilled with [undefined]. *)
Lemma create_returns_no_identifier :
  let r := handleCreateNewReport "default-8d-app" sample_env sample_app empty_world in
  activeReportId (fst r) = Some "r1"
  /\ settled (snd r) <> Fulfilled (Some (VStr "r1")).
Proof. split; [reflexivity | discriminate]. Qed.

(** C9 (as the code has it): the title of a created report is
    "Nuevo Informe 8D - " followed by the locale date string of the day. *)
Theorem create_title (appId : string) (env : Env) (a : App) (w : World) (uid : string) :
  db a = Some firestore -> userId a = Some uid -> uid <> "" -> online w = true ->
  exists doc,
    docs (world (snd (handleCreateNewReport appId env a w)))
      !! reportDocPath appId (autoId env) = Some doc
    /\ obj_get "title" doc = Some (VStr ("Nuevo Informe 8D - " ++ today env)%string)
    /\ obj_get "createdBy" doc = Some (VStr uid).
Proof.
  intros Hdb Hu Hne Hon.
  rewrite (create_accepted appId env a w uid Hdb Hu Hne Hon). simpl.
  exists (newReportData env uid). split; [apply lookup_insert_eq|].
  split; reflexivity.
Qed.

Lemma create_title_witness :
  exists doc,
    docs sample_world !! reportDocPath "default-8d-app" "r1" = Some doc
    /\ obj_get "title" doc = Some (VStr "Nuevo Informe 8D - 1/11/2026").
Proof.
  destruct (create_title "default-8d-app" sample_env sample_app empty_world "u123456789")
    as (doc & H1 & H2 & _); try reflexivity; try discriminate.
  exists doc. split; [exact H1 | exact H2].
Defined.

(** C9, the claim as stated fails: the title is not "New Report – <date>". *)
Lemma create_title_not_new_report :
  exists doc,
    docs sample_world !! reportDocPath "default-8d-app" "r1" = Some doc
    /\ obj_get "title" doc <> Some (VStr ("New Report – " ++ today sample_env)%string).
Proof.
  exists (newReportData sample_env "u123456789"). split; [reflexivity | discriminate].
Qed.

Section Guards.

Variables (dbh : option Firestore) (rid : option string) (appId field : string)
          (v : value) (w : World).

Lemma handleUpdate_guard_closed :
  missing dbh || absent rid = true -> handleUpdate dbh rid appId field v w = quiet w.
Proof. intros H. unfold handleUpdate. now rewrite H. Qed.

Lemma handleDeepUpdate_guard_closed :
  missing dbh || absent rid = true -> handleDeepUpdate dbh rid appId field v w = quiet w.
Proof. intros H. unfold handleDeepUpdate. now rewrite H. Qed.

Lemma handleUpdate_accepted (reportId : string) (fs : fields) :
  reportId <> "" -> valid_field_path field = true -> online w = true ->
  docs w !! reportDocPath appId reportId = Some fs ->
  handleUpdate (Some firestore) (Some reportId) appId field v w =
  mkOutcome
    (mkWorld (<[reportDocPath appId reportId := set_path (split_dots field) v fs]> (docs w))
             true)
    [] [UpdateDoc (reportDocPath appId reportId) field v] (Fulfilled None).
Proof.
  intros Hid Hv Hon Hdoc. unfold handleUpdate.
  rewrite (absent_Some_false _ Hid). simpl.
  now rewrite (updateDoc_accepted w _ _ v fs Hv Hon Hdoc).
Qed.

End Guards.

(** C4 (as the code has it): a deep update called with no report identifier
    or no storage handle writes nothing and completes silently: no request
    is issued, nothing is logged, and the promise is fulfilled with
    [undefined] as it is after a successful write. *)
Theorem deep_update_guard (dbh : option Firestore) (rid : option string)
    (appId path : string) (v : value) (w : World) :
  missing dbh || absent rid = true ->
  let o := handleDeepUpdate dbh rid appId path v w in
  world o = w /\ issued o = [] /\ console o = [] /\ settled o = Fulfilled None.
Proof.
  intros H o. subst o. rewrite handleDeepUpdate_guard_closed by exact H.
  repeat split.
Qed.

Lemma deep_update_guard_witness :
  world (handleDeepUpdate (Some firestore) None "default-8d-app" "d2_problem.where"
           (VStr "line 3") sample_world) = sample_world.
Proof.
  exact (proj1 (deep_update_guard (Some firestore) None "default-8d-app"
                  "d2_problem.where" (VStr "line 3") sample_world eq_refl)).
Defined.

(** C4, the claim as stated fails: with the identifier absent, or with the
    storage handle absent, no failure reaches the caller. *)
Lemma deep_update_guard_reports_nothing :
  ~ reports_failure (handleDeepUpdate (Some firestore) None "default-8d-app"
                       "d2_problem.where" (VStr "line 3") sample_world)
  /\ ~ reports_failure (handleDeepUpdate None (Some "r1") "default-8d-app"
                          "d2_problem.where" (VStr "line 3") sample_world)
  /\ settled (handleDeepUpdate (Some firestore) None "default-8d-app"
                "d2_problem.where" (VStr "line 3") sample_world)
     = settled (handleDeepUpdate (Some firestore) (Some "r1") "default-8d-app"
                  "d2_problem.where" (VStr "line 3") sample_world).
Proof.
  repeat split; try reflexivity; intros [H|H]; apply H; reflexivity.
Qed.

(** C10 (as the code has it): on every input [handleUpdate] and
    [handleDeepUpdate] share the guard, issue the same request, leave the
    same store and settle alike; they log the same errors, under two
    different messages, so they coincide exactly when nothing is logged. *)
Theorem update_and_deep_update_agree (dbh : option Firestore) (rid : option string)
    (appId p : string) (v : value) (w : World) :
  let o1 := handleUpdate dbh rid appId p v w in
  let o2 := handleDeepUpdate dbh rid appId p v w in
  world o1 = world o2 /\ issued o1 = issued o2 /\ settled o1 = settled o2
  /\ map snd (console o1) = map snd (console o2)
  /\ Forall (fun l => fst l = "Error updating document: ") (console o1)
  /\ Forall (fun l => fst l = "Error performing deep update:") (console o2)
  /\ (console o1 = [] <-> console o2 = [])
  /\ (console o1 = [] -> o1 = o2).
Proof.
  intros o1 o2. subst o1 o2. unfold handleUpdate, handleDeepUpdate.
  destruct (missing dbh || absent rid).
  - repeat split; constructor.
  - destruct (updateDoc _ p v w) as [w' [e|]]; simpl.
    + repeat split; try discriminate; repeat constructor.
    + repeat split; constructor.
Qed.

(** C10, the claim as stated fails: when the store rejects the write the
    two handlers differ, in the message they log. *)
Lemma update_and_deep_update_differ :
  handleUpdate (Some firestore) (Some "r1") "default-8d-app" "title" (VStr "x") offline_world
  <> handleDeepUpdate (Some firestore) (Some "r1") "default-8d-app" "title" (VStr "x")
       offline_world.
Proof. discriminate. Qed.

Section Spread.

Lemma obj_get_spread (k : string) (a b : fields) :
  NoDup (keys b) ->
  obj_get k (spread a b) =
  match obj_get k b with Some x => Some x | None => obj_get k a end.
Proof.
  unfold spread. revert a. induction b as [|[k' v'] b IH]; intros a Hnd; [reflexivity|].
  apply NoDup_cons in Hnd as [Hnin Hnd]. simpl in Hnin. simpl.
  rewrite (IH _ Hnd). destruct (String.eqb k k') eqn:E.
  - apply String.eqb_eq in E. subst k'.
    apply obj_get_None_keys in Hnin. rewrite Hnin. apply obj_get_set_eq.
  - apply String.eqb_neq in E.
    destruct (obj_get k b); [reflexivity|].
    apply obj_get_set_ne. congruence.
Qed.

(** A field of the stored document other than [id] is the field of the
    report the components receive. *)
Lemma obj_get_with_id (k id : string) (data : fields) :
  NoDup (keys data) -> k <> "id" ->
  obj_get k (spread [("id", VStr id)] data) = obj_get k data.
Proof.
  intros Hnd Hk. rewrite obj_get_spread by exact Hnd.
  destruct (obj_get k data); [reflexivity|]. simpl.
  destruct (String.eqb k "id") eqn:E; [|reflexivity].
  apply String.eqb_eq in E. congruence.
Qed.

End Spread.

Section Opening.

Variables (appId id : string) (a : App) (w : World).

Lemma activeReportEffect_selected :
  db a = Some firestore -> id <> "" ->
  activeReportEffect appId (handleSelectReport id a) =
  (handleSelectReport id a, Some (reportDocPath appId id)).
Proof.
  intros Hdb Hid.
  unfold activeReportEffect, handleSelectReport, setView, setActiveReportId.
  cbn [view db activeReportId]. now rewrite Hdb, (absent_Some_false _ Hid).
Qed.

(** Opening a report that exists shows the stored document, with its
    identifier, in a workspace positioned by the document. *)
Lemma openReport_existing (data : fields) :
  db a = Some firestore -> id <> "" ->
  docs w !! reportDocPath appId id = Some data ->
  openReport appId id a w =
  (setActiveReport (Some (spread [("id", VStr id)] data)) (handleSelectReport id a),
   reportEffect (Some (spread [("id", VStr id)] data)) Workspace_init).
Proof.
  intros Hdb Hid Hdoc. unfold openReport.
  rewrite (activeReportEffect_selected Hdb Hid), Hdoc. reflexivity.
Qed.

(** Opening a report that is gone falls back to the dashboard. *)
Lemma openReport_missing :
  db a = Some firestore -> id <> "" ->
  docs w !! reportDocPath appId id = None ->
  view (fst (openReport appId id a w)) = dashboard.
Proof.
  intros Hdb Hid Hdoc. unfold openReport.
  rewrite (activeReportEffect_selected Hdb Hid), Hdoc. reflexivity.
Qed.

End Opening.

Lemma discipline_id_truthy (d : string) : In d discipline_ids -> truthy (VStr d) = true.
Proof.
  intros H. simpl in H.
  repeat (destruct H as [H|H]; [subst d; reflexivity|]). destruct H.
Qed.

(** C3: from any discipline [s], selecting any discipline [d] makes [d] the
    active one and issues the update of [currentDiscipline] to [d], which
    the store then holds; opening the report again resumes at [d].  A
    report that has a [currentDiscipline] opens there, one without the
    field opens at D1.  (The stored document is an object: its keys are
    distinct.) *)
Theorem select_discipline_roundtrip (appId reportId s d : string) (gen : bool)
    (a : App) (w : World) (fs : fields) :
  In s discipline_ids -> In d discipline_ids ->
  reportId <> "" -> db a = Some firestore -> online w = true ->
  docs w !! reportDocPath appId reportId = Some fs -> NoDup (keys fs) ->
  let r := handleSelect (Some firestore) (Some reportId) appId d
                        (mkWorkspace (VStr s) gen) w in
  activeDiscipline (fst r) = VStr d
  /\ issued (snd r) = [UpdateDoc (reportDocPath appId reportId) "currentDiscipline" (VStr d)]
  /\ (exists fs', docs (world (snd r)) !! reportDocPath appId reportId = Some fs'
                  /\ obj_get "currentDiscipline" fs' = Some (VStr d))
  /\ activeDiscipline (snd (openReport appId reportId a (world (snd r)))) = VStr d
  /\ (forall r0 d0, obj_get "currentDiscipline" r0 = Some (VStr d0) -> In d0 discipline_ids ->
        activeDiscipline (reportEffect (Some r0) Workspace_init) = VStr d0)
  /\ (forall r0, obj_get "currentDiscipline" r0 = None ->
        activeDiscipline (reportEffect (Some r0) Workspace_init) = VStr "D1").
Proof.
  intros Hs Hd Hid Hdb Hon Hdoc Hnd r. subst r.
  unfold handleSelect.
  rewrite (handleUpdate_accepted appId "currentDiscipline" (VStr d) w reportId fs
             Hid eq_refl Hon Hdoc). simpl.
  split; [reflexivity|]. split; [reflexivity|].
  split; [eexists; split; [apply lookup_insert_eq | apply obj_get_set_eq]|].
  split; [|split].
  - rewrite (openReport_existing appId reportId a _ _ Hdb Hid (lookup_insert_eq _ _ _)).
    unfold reportEffect. cbn [snd split_dots set_path].
    rewrite obj_get_with_id; [| now apply NoDup_keys_obj_set | discriminate].
    rewrite obj_get_set_eq.
    now rewrite (discipline_id_truthy d Hd).
  - intros r0 d0 H0 Hd0. unfold reportEffect. rewrite H0.
    now rewrite (discipline_id_truthy d0 Hd0).
  - intros r0 H0. unfold reportEffect. now rewrite H0.
Qed.

Lemma select_discipline_roundtrip_witness :
  activeDiscipline
    (snd (openReport "default-8d-app" "r1" sample_app
            (world (snd (handleSelect (Some firestore) (Some "r1") "default-8d-app" "D5"
                           (mkWorkspace (VStr "D1") false) sample_world)))))
  = VStr "D5".
Proof.
  refine (proj1 (proj2 (proj2 (proj2
    (select_discipline_roundtrip "default-8d-app" "r1" "D1" "D5" false sample_app
       sample_world (newReportData sample_env "u123456789") _ _ _ _ _ _ _))))).
  - simpl. tauto.
  - simpl. tauto.
  - discriminate.
  - reflexivity.
  - reflexivity.
  - vm_compute. reflexivity.
  - apply (bool_decide_unpack _). vm_compute. reflexivity.
Defined.

(** C7: the click on a card's delete button only opens the confirmation
    for that report: it does not reach the card, so no report is selected
    and the screen stays; confirming deletes without touching the screen or
    the selection, and so does the list update that follows.  (A click on
    the card itself does select.) *)
Theorem delete_never_selects (appId reportId : string) (a : App) (d : DashboardState)
    (w : World) (querySnapshot : list (string * fields)) :
  let s1 := click_deleteButton reportId (a, d) in
  let r := confirmDelete appId (fst s1) (snd s1) w in
  fst s1 = a
  /\ snd s1 = mkDashboard true (Some reportId)
  /\ fst r = mkDashboard false None
  /\ view (onReportsSnapshot querySnapshot (fst s1)) = view a
  /\ activeReportId (onReportsSnapshot querySnapshot (fst s1)) = activeReportId a
  /\ view (fst (activeReportEffect appId (onReportsSnapshot querySnapshot (fst s1)))) = view a
  /\ click_card reportId (a, d) = (handleSelectReport reportId a, d).
Proof.
  intros s1 r. subst r s1. unfold click_deleteButton, click_card. simpl.
  repeat split.
  unfold activeReportEffect, onReportsSnapshot, setIsLoading, setReports, setActiveReport.
  cbn [view db activeReportId].
  destruct (view a) eqn:Hview; [reflexivity|].
  destruct (missing (db a) || absent (activeReportId a)); simpl; now rewrite ?Hview.
Qed.

Section PdfExport.

Variable splitTextToSize : string -> Z -> list string.
Variable finalY : Z -> list (list string) -> list (list string) -> Z.

Lemma lineArrays_app (l1 l2 : list PdfOp) :
  lineArrays (l1 ++ l2) = lineArrays l1 ++ lineArrays l2.
Proof. apply flat_map_app. Qed.

Lemma tables_app (l1 l2 : list PdfOp) : tables (l1 ++ l2) = tables l1 ++ tables l2.
Proof. apply flat_map_app. Qed.

Lemma ops_call (op : PdfOp) (d : PdfDoc) : ops (call op d) = ops d ++ [op].
Proof. reflexivity. Qed.

Lemma ops_setY (y' : Z) (d : PdfDoc) : ops (setY y' d) = ops d.
Proof. reflexivity. Qed.

Lemma ops_pageBreak (d : PdfDoc) :
  ops (pageBreak d) = ops d \/ ops (pageBreak d) = ops d ++ [AddPage].
Proof. unfold pageBreak. destruct (250 <? y d)%Z; [right | left]; reflexivity. Qed.

Lemma lineArrays_pageBreak (d : PdfDoc) :
  lineArrays (ops (pageBreak d)) = lineArrays (ops d).
Proof.
  destruct (ops_pageBreak d) as [H|H]; rewrite H; [reflexivity|].
  rewrite lineArrays_app. apply app_nil_r.
Qed.

Lemma tables_pageBreak (d : PdfDoc) : tables (ops (pageBreak d)) = tables (ops d).
Proof.
  destruct (ops_pageBreak d) as [H|H]; rewrite H; [reflexivity|].
  rewrite tables_app. apply app_nil_r.
Qed.

Lemma lineArrays_addSection (t : string) (d : PdfDoc) :
  lineArrays (ops (addSection t d)) = lineArrays (ops d).
Proof.
  unfold addSection. cbv zeta.
  rewrite !ops_call, !ops_setY, !ops_call, !lineArrays_app, lineArrays_pageBreak.
  simpl. now rewrite !app_nil_r.
Qed.

Lemma tables_addSection (t : string) (d : PdfDoc) :
  tables (ops (addSection t d)) = tables (ops d).
Proof.
  unfold addSection. cbv zeta.
  rewrite !ops_call, !ops_setY, !ops_call, !tables_app, tables_pageBreak.
  simpl. now rewrite !app_nil_r.
Qed.

Lemma lineArrays_autoTable (h b : list (list string)) (d : PdfDoc) :
  lineArrays (ops (autoTable finalY h b d)) = lineArrays (ops d).
Proof.
  unfold autoTable. cbv zeta. rewrite ops_setY, ops_call, lineArrays_app.
  apply app_nil_r.
Qed.

Lemma tables_autoTable (h b : list (list string)) (d : PdfDoc) :
  tables (ops (autoTable finalY h b d)) = tables (ops d) ++ [(h, b)].
Proof.
  unfold autoTable. cbv zeta. now rewrite ops_setY, ops_call, tables_app.
Qed.

(** The loop draws one array of lines per why, numbered from [i + 1]. *)
Lemma lineArrays_forEachWhy (whys : list string) (i : nat) (d : PdfDoc) :
  lineArrays (ops (forEachWhy splitTextToSize i whys d)) =
  lineArrays (ops d) ++ map (fun t => splitTextToSize t 180%Z) (numbered i whys).
Proof.
  revert i d. induction whys as [|why rest IH]; intros i d; simpl.
  - now rewrite app_nil_r.
  - rewrite IH, ops_setY, ops_call, lineArrays_app, <- app_assoc. reflexivity.
Qed.

Lemma tables_forEachWhy (whys : list string) (i : nat) (d : PdfDoc) :
  tables (ops (forEachWhy splitTextToSize i whys d)) = tables (ops d).
Proof.
  revert i d. induction whys as [|why rest IH]; intros i d; simpl; [reflexivity|].
  rewrite IH, ops_setY, ops_call, tables_app. apply app_nil_r.
Qed.

(** The line arrays of an export are the numbered whys, split. *)
Lemma lineArrays_generatePdf (report : Report) :
  lineArrays (generatePdf splitTextToSize finalY report) =
  map (fun t => splitTextToSize t 180%Z) (numbered 0 (five_whys (d4_root_cause report))).
Proof.
  unfold generatePdf. cbv zeta.
  repeat first
    [ rewrite ops_call | rewrite ops_setY | rewrite lineArrays_app
    | rewrite lineArrays_autoTable | rewrite lineArrays_addSection
    | rewrite lineArrays_pageBreak | rewrite lineArrays_forEachWhy ].
  simpl. now rewrite !app_nil_r.
Qed.

(** The tables of an export, in order. *)
Lemma tables_generatePdf (report : Report) :
  tables (generatePdf splitTextToSize finalY report) =
  [ ([["Nombre"; "Rol"]], map (fun m => [name m; role m]) (d1_team report));
    ([["Pregunta"; "Descripción"]], entries_rows (d2_problem report));
    ([["Acción"; "Responsable"; "Fecha"]],
     map (fun a => [action a; responsible a; date a]) (d3_containment report));
    ([["Categoría"; "Causas Potenciales"]],
     fishbone_rows (fishbone (d4_root_cause report))) ].
Proof.
  unfold generatePdf. cbv zeta.
  repeat first
    [ rewrite ops_call | rewrite ops_setY | rewrite tables_app
    | rewrite tables_autoTable | rewrite tables_addSection
    | rewrite tables_pageBreak | rewrite tables_forEachWhy ].
  simpl. reflexivity.
Qed.

End PdfExport.



(** C6 (as the code has it): the fishbone table is the fourth table of the
    export; it has one row per entry of the report's fishbone, in the key
    order of that mapping, each row the category and its causes joined by
    newlines: no text for no cause, the cause itself for one, and the
    causes in order with a line feed between each two for more.  When the
    keys come in the order Manpower, Machine, Method, Material,
    Measurement, Environment, with Machine: ["worn bearing"] and the others
    empty, the table has the six rows in that order, "worn bearing" in the
    Machine row and empty text elsewhere. *)
Theorem export_fishbone_table
    (splitTextToSize : string -> Z -> list string)
    (finalY : Z -> list (list string) -> list (list string) -> Z) (report : Report) :
  let fb := fishbone (d4_root_cause report) in
  exists rows,
    fishboneTable (generatePdf splitTextToSize finalY report) =
      Some ([["Categoría"; "Causas Potenciales"]], rows)
    /\ rows = map (fun kv => [fst kv;
                              String.concat (String "010"%char EmptyString) (snd kv)]) fb
    /\ length rows = length fb
    /\ map (hd "") rows = map fst fb
    /\ (forall i c, fb !! i = Some (c, []) -> rows !! i = Some [c; ""])
    /\ (forall i c x, fb !! i = Some (c, [x]) -> rows !! i = Some [c; x])
    /\ (forall i c x y, fb !! i = Some (c, [x; y]) ->
          rows !! i = Some [c; (x ++ String "010"%char y)%string])
    /\ (forall i c x y z, fb !! i = Some (c, [x; y; z]) ->
          rows !! i =
            Some [c; (x ++ String "010"%char (y ++ String "010"%char z))%string])
    /\ (forall i c x causes, fb !! i = Some (c, x :: causes) ->
          exists text rest, rows !! i = Some [c; text]
                            /\ text = (x ++ rest)%string
                            /\ (causes = [] -> rest = ""))
    /\ (map fst fb = categories -> worn_bearing_only fb ->
          rows =
            [ ["Manpower"; ""]; ["Machine"; "worn bearing"]; ["Method"; ""];
              ["Material"; ""]; ["Measurement"; ""]; ["Environment"; ""] ]).
Proof.
  intros fb. unfold fishboneTable. rewrite tables_generatePdf. fold fb.
  exists (fishbone_rows fb).
  split; [reflexivity|]. split; [reflexivity|]. split; [apply length_map|].
  split; [unfold fishbone_rows; rewrite map_map; reflexivity|].
  split; [intros i c H; unfold fishbone_rows; now rewrite list_lookup_fmap, H|].
  split; [intros i c x H; unfold fishbone_rows; now rewrite list_lookup_fmap, H|].
  split; [intros i c x y H; unfold fishbone_rows; now rewrite list_lookup_fmap, H|].
  split; [intros i c x y z H; unfold fishbone_rows; now rewrite list_lookup_fmap, H|].
  split.
  { intros i c x causes H. unfold fishbone_rows. rewrite list_lookup_fmap, H.
    destruct causes as [|x' causes].
    - exists x, "". split; [reflexivity|]. split; [|reflexivity].
      clear. induction x as [|a x IH]; [reflexivity|].
      change (String a x = String a (x ++ ""))%string. now rewrite <- IH.
    - exists (String.concat newline (x :: x' :: causes)),
             (newline ++ String.concat newline (x' :: causes))%string.
      split; [reflexivity|]. split; [reflexivity | discriminate]. }
  intros Hkeys Hwb.
  destruct fb as [|[k1 c1] [|[k2 c2] [|[k3 c3] [|[k4 c4] [|[k5 c5] [|[k6 c6] [|]]]]]]];
    try discriminate Hkeys.
  injection Hkeys as -> -> -> -> -> ->.
  pose proof (Hwb "Manpower" ltac:(simpl; tauto)) as H1.
  pose proof (Hwb "Machine" ltac:(simpl; tauto)) as H2.
  pose proof (Hwb "Method" ltac:(simpl; tauto)) as H3.
  pose proof (Hwb "Material" ltac:(simpl; tauto)) as H4.
  pose proof (Hwb "Measurement" ltac:(simpl; tauto)) as H5.
  pose proof (Hwb "Environment" ltac:(simpl; tauto)) as H6.
  simpl in H1, H2, H3, H4, H5, H6.
  injection H1 as ->. injection H2 as ->. injection H3 as ->.
  injection H4 as ->. injection H5 as ->. injection H6 as ->.
  reflexivity.
Qed.

Lemma export_fishbone_table_witness :
  (exists rows,
     fishboneTable (generatePdf one_line below (sample_report creation_order_fishbone)) =
       Some ([["Categoría"; "Causas Potenciales"]], rows)
     /\ rows =
          [ ["Manpower"; ""]; ["Machine"; "worn bearing"]; ["Method"; ""];
            ["Material"; ""]; ["Measurement"; ""]; ["Environment"; ""] ])
  /\ (exists rows,
        fishboneTable (generatePdf one_line below (sample_report two_causes_fishbone)) =
          Some ([["Categoría"; "Causas Potenciales"]], rows)
        /\ rows !! 1 =
             Some ["Machine"; ("worn bearing" ++ String "010"%char "loose belt")%string]).
Proof.
  split.
  - destruct (export_fishbone_table one_line below (sample_report creation_order_fishbone))
      as (rows & H1 & _ & _ & _ & _ & _ & _ & _ & _ & H10).
    exists rows. split; [exact H1|]. apply H10; [reflexivity|].
    intros c Hc. simpl in Hc.
    repeat (destruct Hc as [<-|Hc]; [reflexivity|]). destruct Hc.
  - destruct (export_fishbone_table one_line below (sample_report two_causes_fishbone))
      as (rows & H1 & _ & _ & _ & _ & _ & H7 & _).
    exists rows. split; [exact H1|].
    apply (H7 1 "Machine" "worn bearing" "loose belt"). reflexivity.
Defined.

(** C6, the claim as stated fails: a fishbone with Machine: ["worn bearing"]
    and every other category empty, whose keys come in alphabetical order,
    is exported with its rows in alphabetical order, not in the fixed one. *)
Lemma export_fishbone_follows_key_order :
  worn_bearing_only alphabetical_fishbone
  /\ fishboneTable (generatePdf one_line below (sample_report alphabetical_fishbone)) =
       Some ([["Categoría"; "Causas Potenciales"]],
             [ ["Environment"; ""]; ["Machine"; "worn bearing"]; ["Manpower"; ""];
               ["Material"; ""]; ["Measurement"; ""]; ["Method"; ""] ])
  /\ fishboneTable (generatePdf one_line below (sample_report alphabetical_fishbone)) <>
       Some ([["Categoría"; "Causas Potenciales"]],
             [ ["Manpower"; ""]; ["Machine"; "worn bearing"]; ["Method"; ""];
               ["Material"; ""]; ["Measurement"; ""]; ["Environment"; ""] ]).
Proof.
  split; [|split].
  - intros c Hc. simpl in Hc.
    repeat (destruct Hc as [<-|Hc]; [reflexivity|]). destruct Hc.
  - vm_compute. reflexivity.
  - vm_compute. discriminate.
Qed.

(* --------------------------------------------------------------------- *)
(* The discipline editors                                                 *)
(* --------------------------------------------------------------------- *)

Section Editors.

Lemma filter_index_delete {A : Type} (index k : nat) (l : list A) :
  filter_index (fun i => negb (Nat.eqb i index)) k l =
  if Nat.leb k index then delete (index - k) l else l.
Proof.
  revert k. induction l as [|x l IH]; intros k.
  - now destruct (Nat.leb k index).
  - cbn [filter_index]. rewrite (IH (S k)).
    destruct (Nat.eqb_spec k index) as [->|Hne]; cbn [negb].
    + assert (Hgt : Nat.leb (S index) index = false) by (apply Nat.leb_gt; lia).
      now rewrite Hgt, Nat.leb_refl, Nat.sub_diag.
    + destruct (Nat.leb_spec k index) as [Hle|Hgt].
      * assert (Hle' : Nat.leb (S k) index = true) by (apply Nat.leb_le; lia).
        rewrite Hle'. replace (index - k) with (S (index - S k)) by lia. reflexivity.
      * assert (Hgt' : Nat.leb (S k) index = false) by (apply Nat.leb_gt; lia).
        now rewrite Hgt'.
Qed.

(** The filter on the index removes the item at [index]. *)
Lemma item_remove_delete {A : Type} (index : nat) (l : list A) :
  item_remove index l = delete index l.
Proof.
  unfold item_remove. rewrite filter_index_delete. simpl. now rewrite Nat.sub_0_r.
Qed.

Lemma delete_out_of_range {A : Type} (index : nat) (l : list A) :
  length l <= index -> delete index l = l.
Proof.
  revert index. induction l as [|x l IH]; intros [|i] H; simpl in *; try reflexivity; try lia.
  f_equal. apply IH. lia.
Qed.

Lemma delete_last_appended {A : Type} (l : list A) (x : A) :
  delete (length l) (l ++ [x]) = l.
Proof. induction l as [|z l IH]; simpl; [reflexivity | now f_equal]. Qed.

Lemma obj_get_Some_key (k : string) (v : value) (fs : fields) :
  obj_get k fs = Some v -> existsb (String.eqb k) (keys fs) = true.
Proof.
  unfold keys. induction fs as [|[k' v'] fs IH]; simpl; [discriminate|].
  destruct (String.eqb k k'); [reflexivity | exact IH].
Qed.

Lemma obj_set_same (k : string) (v : value) (fs : fields) :
  obj_get k fs = Some v -> obj_set k v fs = fs.
Proof.
  induction fs as [|[k' v'] fs IH]; simpl; [discriminate|].
  destruct (String.eqb k k') eqn:E.
  - apply String.eqb_eq in E. intros [= ->]. now subst.
  - intros H. now rewrite IH.
Qed.

Lemma obj_set_twice (k : string) (v v' : value) (fs : fields) :
  obj_set k v (obj_set k v' fs) = obj_set k v fs.
Proof.
  induction fs as [|[k0 v0] fs IH]; simpl.
  - now rewrite String.eqb_refl.
  - destruct (String.eqb k k0) eqn:E; simpl.
    + now rewrite String.eqb_refl.
    + now rewrite E, IH.
Qed.

End Editors.

(** X1: Roster and action lists: adding an item and then removing the item at
    the position it was added restores the list, in D1, D3 and D5. *)
Theorem add_then_remove_restores (data : list fields) :
  D1_removeMember (length data) (D1_addMember data) = data
  /\ D3_removeAction (length data) (D3_addAction data) = data
  /\ D5_removeAction (length data) (D5_addAction data) = data.
Proof.
  unfold D1_removeMember, D1_addMember, D3_removeAction, D3_addAction,
    D5_removeAction, D5_addAction.
  rewrite !item_remove_delete, !delete_last_appended. auto.
Qed.

(** X2: Removing by position: within range the list loses exactly that item,
    the items before it keep their positions and the items after it move
    up by one; out of range nothing is removed. *)
Theorem remove_is_positional (index : nat) (data : list fields) :
  (index < length data ->
     S (length (D1_removeMember index data)) = length data
     /\ (forall j, j < index -> D1_removeMember index data !! j = data !! j)
     /\ (forall j, index <= j -> D1_removeMember index data !! j = data !! S j))
  /\ (length data <= index -> D1_removeMember index data = data)
  /\ D3_removeAction index data = D1_removeMember index data
  /\ D5_removeAction index data = D1_removeMember index data.
Proof.
  unfold D1_removeMember, D3_removeAction, D5_removeAction.
  rewrite item_remove_delete. repeat split.
  - rewrite length_delete by (apply lookup_lt_is_Some; exact H). lia.
  - intros j Hj. now apply list_lookup_delete_lt.
  - intros j Hj. now apply list_lookup_delete_ge.
  - apply delete_out_of_range.
Qed.

Lemma remove_is_positional_witness :
  D1_removeMember 0 [[("name", VStr "Ana")]; [("name", VStr "Luis")]] !! 0
  = Some [("name", VStr "Luis")].
Proof.
  refine (proj2 (proj2 (proj1
    (remove_is_positional 0 [[("name", VStr "Ana")]; [("name", VStr "Luis")]])
    _)) 0 _); simpl; lia.
Defined.

(** X3: Editing a field of an item: within range the list keeps its length,
    the item at [index] gets the field and keeps its other fields, and the
    other items are untouched; out of range the handler throws. *)
Theorem item_change_in_place (index : nat) (field : string) (v : value)
    (data : list fields) :
  (index < length data ->
     exists item newData,
       data !! index = Some item
       /\ D1_handleMemberChange index field v data = Some newData
       /\ length newData = length data
       /\ newData !! index = Some (obj_set field v item)
       /\ obj_get field (obj_set field v item) = Some v
       /\ (forall f, f <> field -> obj_get f (obj_set field v item) = obj_get f item)
       /\ (forall j, j <> index -> newData !! j = data !! j))
  /\ (length data <= index -> D1_handleMemberChange index field v data = None)
  /\ D3_handleActionChange index field v data = D1_handleMemberChange index field v data
  /\ D5_handleActionChange index field v data = D1_handleMemberChange index field v data.
Proof.
  unfold D1_handleMemberChange, D3_handleActionChange, D5_handleActionChange, item_change.
  repeat split.
  - intros Hlt. destruct (lookup_lt_is_Some_2 data index Hlt) as [item Hitem].
    exists item, (<[index := obj_set field v item]> data). rewrite Hitem.
    repeat split.
    + apply length_insert.
    + now apply list_lookup_insert_eq.
    + apply obj_get_set_eq.
    + intros f Hf. apply obj_get_set_ne. congruence.
    + intros j Hj. apply list_lookup_insert_ne. congruence.
  - intros Hge. now rewrite (lookup_ge_None_2 data index Hge).
Qed.

Lemma item_change_in_place_witness :
  D1_handleMemberChange 1 "role" (VStr "x") [[("name", VStr "Ana")]] = None.
Proof.
  refine (proj1 (proj2 (item_change_in_place 1 "role" (VStr "x") [[("name", VStr "Ana")]])) _).
  simpl. lia.
Defined.

(** X4: The whys never get fewer: an edit keeps the length (or, at the end,
    adds one entry) and touches only its position; a new why is an empty
    entry at the end.  There is no handler that removes a why, so the list
    seeded at creation stays non-empty. *)
Theorem whys_never_shrink (index : nat) (v : value) (whys whys' : list value) :
  D4_handleWhyChange index v whys = Some whys' ->
  length whys <= length whys'
  /\ whys' !! index = Some v
  /\ (forall j, j <> index -> j < length whys -> whys' !! j = whys !! j)
  /\ (index < length whys -> length whys' = length whys)
  /\ D4_addWhy whys = whys ++ [VStr ""]
  /\ length (D4_addWhy whys) = S (length whys).
Proof.
  unfold D4_handleWhyChange, D4_addWhy. intros H.
  destruct (Nat.ltb index (length whys)) eqn:E1.
  - apply Nat.ltb_lt in E1. injection H as <-. rewrite length_insert.
    repeat split; try lia.
    + now apply list_lookup_insert_eq.
    + intros j Hj _. apply list_lookup_insert_ne. congruence.
    + rewrite length_app. simpl. lia.
  - apply Nat.ltb_ge in E1. destruct (Nat.eqb index (length whys)) eqn:E2; [|discriminate].
    apply Nat.eqb_eq in E2. injection H as <-. subst index. rewrite length_app. simpl.
    repeat split; try lia.
    + rewrite lookup_app_r by lia. now rewrite Nat.sub_diag.
    + intros j _ Hj. now apply lookup_app_l.
    + rewrite length_app. simpl. lia.
Qed.

Lemma whys_never_shrink_witness :
  length [VStr ""] <= length [VStr "no calibration"].
Proof.
  exact (proj1 (whys_never_shrink 0 (VStr "no calibration") [VStr ""]
                  [VStr "no calibration"] eq_refl)).
Defined.

(** X5: The fishbone handlers keep the categories of the fishbone and their
    order, and leave every category other than the addressed one as it
    was; on a category the fishbone does not have they throw. *)
Theorem fishbone_edits_keep_categories (category : string) (index : nat) (v : value)
    (fb fb' : fields) :
  D4_handleFishboneChange category index v fb = Some fb'
  \/ D4_addFishboneCause category fb = Some fb'
  \/ D4_removeFishboneCause category index fb = Some fb' ->
  keys fb' = keys fb
  /\ (forall c, c <> category -> obj_get c fb' = obj_get c fb)
  /\ (exists causes causes', obj_get category fb = Some (VArr causes)
                             /\ obj_get category fb' = Some (VArr causes')).
Proof.
  unfold D4_handleFishboneChange, D4_addFishboneCause, D4_removeFishboneCause.
  intros H.
  destruct (obj_get category fb) as [[| | |causes|]|] eqn:Hc;
    try (destruct H as [H|[H|H]]; discriminate).
  assert (Hset : forall x, keys (obj_set category x fb) = keys fb
                           /\ (forall c, c <> category ->
                                 obj_get c (obj_set category x fb) = obj_get c fb)
                           /\ obj_get category (obj_set category x fb) = Some x).
  { intros x. rewrite keys_obj_set, (obj_get_Some_key _ _ _ Hc).
    repeat split; [|apply obj_get_set_eq].
    intros c Hne. apply obj_get_set_ne. congruence. }
  destruct H as [H|[H|H]].
  - destruct (D4_handleWhyChange index v causes) as [causes'|]; [|discriminate].
    injection H as <-. destruct (Hset (VArr causes')) as (H1 & H2 & H3). eauto 6.
  - injection H as <-. destruct (Hset (VArr (causes ++ [VStr ""]))) as (H1 & H2 & H3).
    eauto 6.
  - injection H as <-. destruct (Hset (VArr (item_remove index causes))) as (H1 & H2 & H3).
    eauto 6.
Qed.

Lemma fishbone_edits_keep_categories_witness :
  keys [("Manpower", VArr []); ("Machine", VArr [VStr ""])]
  = keys [("Manpower", VArr []); ("Machine", VArr [])].
Proof.
  refine (proj1 (fishbone_edits_keep_categories "Machine" 0 (VStr "")
            [("Manpower", VArr []); ("Machine", VArr [])]
            [("Manpower", VArr []); ("Machine", VArr [VStr ""])] _)).
  right. left. reflexivity.
Defined.

(** X6: Adding a cause to a category and then removing the cause at the
    position it was added restores the fishbone. *)
Theorem add_then_remove_cause_restores (category : string) (fb fb1 : fields)
    (causes : list value) :
  obj_get category fb = Some (VArr causes) ->
  D4_addFishboneCause category fb = Some fb1 ->
  D4_removeFishboneCause category (length causes) fb1 = Some fb.
Proof.
  unfold D4_addFishboneCause, D4_removeFishboneCause. intros Hc. rewrite Hc.
  intros [= <-]. rewrite obj_get_set_eq, obj_set_twice, item_remove_delete,
    delete_last_appended.
  now rewrite (obj_set_same _ _ _ Hc).
Qed.

Lemma add_then_remove_cause_restores_witness :
  D4_removeFishboneCause "Machine" 0 [("Machine", VArr [VStr ""])]
  = Some [("Machine", VArr [])].
Proof.
  exact (add_then_remove_cause_restores "Machine" [("Machine", VArr [])]
           [("Machine", VArr [VStr ""])] [] eq_refl eq_refl).
Defined.

(* --------------------------------------------------------------------- *)
(* Editors and handlers against the store                                 *)
(* --------------------------------------------------------------------- *)

Section AgainstStore.

Variables (appId reportId : string) (w : World) (fs : fields).
Hypothesis Hid : reportId <> "".
Hypothesis Hon : online w = true.
Hypothesis Hdoc : docs w !! reportDocPath appId reportId = Some fs.

Lemma handleDeepUpdate_accepted (path : string) (v : value) :
  valid_field_path path = true ->
  handleDeepUpdate (Some firestore) (Some reportId) appId path v w =
  mkOutcome
    (mkWorld (<[reportDocPath appId reportId := set_path (split_dots path) v fs]> (docs w))
             true)
    [] [UpdateDoc (reportDocPath appId reportId) path v] (Fulfilled None).
Proof.
  intros Hv. unfold handleDeepUpdate.
  rewrite (absent_Some_false _ Hid). simpl.
  now rewrite (updateDoc_accepted w _ _ v fs Hv Hon Hdoc).
Qed.

Lemma D2_path (key : string) :
  In key D2_keys ->
  valid_field_path ("d2_problem." ++ key) = true
  /\ split_dots ("d2_problem." ++ key) = ["d2_problem"; key].
Proof.
  intros H. simpl in H.
  repeat (destruct H as [<-|H]; [split; reflexivity|]). destruct H.
Qed.

End AgainstStore.

(** X7: Typing in one of the seven D2 inputs stores the text under that key of
    [d2_problem] and changes nothing else: the six other answers and every
    other field of the report stay as they were, and the input shows the
    text. *)
Theorem D2_edit_one_answer (appId reportId key text : string) (w : World)
    (fs d2 : fields) :
  reportId <> "" -> online w = true ->
  docs w !! reportDocPath appId reportId = Some fs ->
  obj_get "d2_problem" fs = Some (VObj d2) ->
  In key D2_keys ->
  let o := D2_onChange (Some firestore) (Some reportId) appId key text w in
  exists fs' d2',
    docs (world o) !! reportDocPath appId reportId = Some fs'
    /\ obj_get "d2_problem" fs' = Some (VObj d2')
    /\ obj_get key d2' = Some (VStr text)
    /\ (forall key', key' <> key -> obj_get key' d2' = obj_get key' d2)
    /\ (forall k, k <> "d2_problem" -> obj_get k fs' = obj_get k fs)
    /\ keys fs' = keys fs
    /\ D2_shown key d2' = VStr text
    /\ console o = [].
Proof.
  intros Hid Hon Hdoc Hd2 Hkey o. subst o. unfold D2_onChange.
  destruct (D2_path key Hkey) as [Hvalid Hsplit].
  rewrite (handleDeepUpdate_accepted appId reportId w fs Hid Hon Hdoc _ _ Hvalid), Hsplit.
  cbn [world docs console set_path]. rewrite Hd2.
  exists (obj_set "d2_problem" (VObj (obj_set key (VStr text) d2)) fs),
         (obj_set key (VStr text) d2).
  split; [apply lookup_insert_eq|]. split; [apply obj_get_set_eq|].
  split; [apply obj_get_set_eq|].
  split; [intros key' Hne; apply obj_get_set_ne; congruence|].
  split; [intros k Hne; apply obj_get_set_ne; congruence|].
  split; [now rewrite keys_obj_set, (obj_get_Some_key _ _ _ Hd2)|].
  split; [|reflexivity].
  unfold D2_shown. rewrite obj_get_set_eq. simpl.
  destruct (String.eqb_spec text ""); [now subst | reflexivity].
Qed.

Lemma D2_edit_one_answer_witness :
  exists fs' d2',
    docs (world (D2_onChange (Some firestore) (Some "r1") "default-8d-app" "where"
                   "line 3" sample_world))
      !! reportDocPath "default-8d-app" "r1" = Some fs'
    /\ obj_get "d2_problem" fs' = Some (VObj d2')
    /\ obj_get "where" d2' = Some (VStr "line 3").
Proof.
  destruct (D2_edit_one_answer "default-8d-app" "r1" "where" "line 3" sample_world
              (newReportData sample_env "u123456789")
              [("what", VStr ""); ("where", VStr ""); ("when", VStr "");
               ("who", VStr ""); ("why", VStr ""); ("how", VStr "");
               ("how_many", VStr "")])
    as (fs' & d2' & H1 & H2 & H3 & _).
  - discriminate.
  - reflexivity.
  - vm_compute. reflexivity.
  - reflexivity.
  - simpl. tauto.
  - exists fs', d2'. auto.
Defined.

(** X8: Typing in an input of D6, D7 or D8 does not store the text: the
    editor calls [onUpdate] with the field name first, and the one-parameter
    [onUpdate] it was given takes that name for the value.  The field of
    the report becomes the string of its own name and its former entries
    can no longer be read. *)
Theorem D6_D7_D8_edit_stores_field_name (appId reportId key text : string) (w : World)
    (fs data : fields) :
  reportId <> "" -> online w = true ->
  docs w !! reportDocPath appId reportId = Some fs ->
  let o6 := D6_onChange (whole_field_onUpdate (Some firestore) (Some reportId) appId
                           "d6_implementation" w) key text data in
  let o7 := D7_onChange (whole_field_onUpdate (Some firestore) (Some reportId) appId
                           "d7_prevention" w) key text data in
  let o8 := D8_onChange (whole_field_onUpdate (Some firestore) (Some reportId) appId
                           "d8_recognition" w) key text data in
  (exists fs', docs (world o6) !! reportDocPath appId reportId = Some fs'
               /\ obj_get "d6_implementation" fs' = Some (VStr "d6_implementation")
               /\ get_path ["d6_implementation"; key] fs' = None)
  /\ (exists fs', docs (world o7) !! reportDocPath appId reportId = Some fs'
                  /\ obj_get "d7_prevention" fs' = Some (VStr "d7_prevention")
                  /\ get_path ["d7_prevention"; key] fs' = None)
  /\ (exists fs', docs (world o8) !! reportDocPath appId reportId = Some fs'
                  /\ obj_get "d8_recognition" fs' = Some (VStr "d8_recognition")
                  /\ get_path ["d8_recognition"; key] fs' = None).
Proof.
  intros Hid Hon Hdoc o6 o7 o8. subst o6 o7 o8.
  unfold D6_onChange, D7_onChange, D8_onChange, call_unary, whole_field_onUpdate.
  rewrite (handleDeepUpdate_accepted appId reportId w fs Hid Hon Hdoc
             "d6_implementation" _ eq_refl),
          (handleDeepUpdate_accepted appId reportId w fs Hid Hon Hdoc
             "d7_prevention" _ eq_refl),
          (handleDeepUpdate_accepted appId reportId w fs Hid Hon Hdoc
             "d8_recognition" _ eq_refl).
  change (split_dots "d6_implementation") with ["d6_implementation"].
  change (split_dots "d7_prevention") with ["d7_prevention"].
  change (split_dots "d8_recognition") with ["d8_recognition"].
  cbn [world docs set_path].
  repeat split; eexists; (split; [apply lookup_insert_eq|]);
    (split; [apply obj_get_set_eq|]);
    rewrite get_path_cons2, obj_get_set_eq; reflexivity.
Qed.

Lemma D6_D7_D8_edit_stores_field_name_witness :
  exists fs',
    docs (world (D6_onChange
                   (whole_field_onUpdate (Some firestore) (Some "r1") "default-8d-app"
                      "d6_implementation" sample_world)
                   "summary" "done on line 3"
                   [("summary", VStr ""); ("validation_results", VStr "")]))
      !! reportDocPath "default-8d-app" "r1" = Some fs'
    /\ obj_get "d6_implementation" fs' = Some (VStr "d6_implementation").
Proof.
  destruct (D6_D7_D8_edit_stores_field_name "default-8d-app" "r1" "summary"
              "done on line 3" sample_world (newReportData sample_env "u123456789")
              [("summary", VStr ""); ("validation_results", VStr "")])
    as [(fs' & H1 & H2 & _) _].
  - discriminate.
  - reflexivity.
  - vm_compute. reflexivity.
  - exists fs'. auto.
Defined.

(** X9: An update never creates and never removes a document: whatever the
    handle, the identifier, the path and the value, the store holds the
    same set of documents afterwards, every document other than the
    addressed one is unchanged, and a logged error means that nothing at
    all was written. *)
Theorem update_keeps_documents (dbh : option Firestore) (rid : option string)
    (appId path : string) (v : value) (w : World) :
  let o := handleDeepUpdate dbh rid appId path v w in
  dom (docs (world o)) = dom (docs w)
  /\ (forall other, other <> reportDocPath appId (default "" rid) ->
        docs (world o) !! other = docs w !! other)
  /\ (console o <> [] -> world o = w)
  /\ online (world o) = online w.
Proof.
  intros o. subst o. unfold handleDeepUpdate, updateDoc.
  destruct (missing dbh || absent rid); [repeat split|].
  destruct (valid_field_path path); simpl; [|repeat split].
  destruct (online w) eqn:Hon; simpl; [|repeat split; now rewrite ?Hon].
  destruct (docs w !! reportDocPath appId (default "" rid)) as [fs|] eqn:Hdoc; simpl;
    [|repeat split; now rewrite ?Hon].
  repeat split.
  - rewrite dom_insert_L. apply elem_of_dom_2 in Hdoc.
    apply subseteq_union_1_L. now apply singleton_subseteq_l.
  - intros other Hne. now apply lookup_insert_ne.
  - intros H. now contradiction H.
Qed.

(** X10: Deleting from the dashboard: the click on the delete button followed by
    the confirmation issues one delete for that report and closes the
    confirmation; the document is gone, the other documents and the
    application state are untouched.  With the store unreachable the error
    is logged, nothing is deleted, and the confirmation closes all the
    same. *)
Theorem confirmed_delete_removes_report (appId reportId : string) (a : App)
    (d : DashboardState) (w : World) :
  reportId <> "" -> db a = Some firestore ->
  let s1 := click_deleteButton reportId (a, d) in
  let r := confirmDelete appId (fst s1) (snd s1) w in
  fst r = Dashboard_init
  /\ issued (snd r) = [DeleteDoc (reportDocPath appId reportId)]
  /\ (online w = true ->
        docs (world (snd r)) !! reportDocPath appId reportId = None
        /\ (forall other, other <> reportDocPath appId reportId ->
              docs (world (snd r)) !! other = docs w !! other)
        /\ console (snd r) = [])
  /\ (online w = false ->
        world (snd r) = w
        /\ console (snd r) = [("Error deleting report:", Some Unavailable)]).
Proof.
  intros Hid Hdb s1 r. subst r s1.
  unfold click_deleteButton, confirmDelete. cbn [bubble deleteButton_onClick
    openDeleteModal stopPropagation propagationStopped fst snd reportToDelete].
  rewrite (absent_Some_false _ Hid). cbn [default].
  unfold handleDeleteReport, deleteDoc. rewrite Hdb. cbn [missing].
  destruct (online w) eqn:Hon; cbn [fst snd world issued console docs].
  - repeat split; try discriminate.
    + apply lookup_delete_eq.
    + intros other Hne. now apply lookup_delete_ne.
  - repeat split; discriminate.
Qed.

Lemma confirmed_delete_removes_report_witness :
  docs (world (snd (confirmDelete "default-8d-app" sample_app
                      (snd (click_deleteButton "r1" (sample_app, Dashboard_init)))
                      sample_world)))
    !! reportDocPath "default-8d-app" "r1" = None.
Proof.
  refine (proj1 (proj1 (proj2 (proj2
    (confirmed_delete_removes_report "default-8d-app" "r1" sample_app Dashboard_init
       sample_world _ _))) _)).
  - discriminate.
  - reflexivity.
  - reflexivity.
Defined.

(** X11: When the store rejects the write, a selection in the navigation is
    local only: the workspace shows the selected discipline, the error is
    logged, the store is unchanged, and opening the report again resumes
    at the discipline the store holds. *)
Theorem select_discipline_not_persisted_offline (appId reportId d stored : string)
    (a : App) (w : World) (fs : fields) (s : WorkspaceState) :
  reportId <> "" -> db a = Some firestore -> online w = false ->
  docs w !! reportDocPath appId reportId = Some fs -> NoDup (keys fs) ->
  obj_get "currentDiscipline" fs = Some (VStr stored) -> stored <> "" ->
  let r := handleSelect (Some firestore) (Some reportId) appId d s w in
  activeDiscipline (fst r) = VStr d
  /\ world (snd r) = w
  /\ console (snd r) = [("Error updating document: ", Some Unavailable)]
  /\ activeDiscipline (snd (openReport appId reportId a (world (snd r)))) = VStr stored.
Proof.
  intros Hid Hdb Hoff Hdoc Hnd Hcur Hstored r. subst r.
  unfold handleSelect, handleUpdate, updateDoc.
  rewrite (absent_Some_false _ Hid), Hoff. cbn.
  repeat split.
  rewrite (openReport_existing appId reportId a w fs Hdb Hid Hdoc).
  unfold reportEffect. cbn [snd].
  rewrite (obj_get_with_id _ _ _ Hnd) by discriminate. rewrite Hcur. cbn [truthy].
  apply String.eqb_neq in Hstored. now rewrite Hstored.
Qed.

Lemma select_discipline_not_persisted_offline_witness :
  activeDiscipline
    (snd (openReport "default-8d-app" "r1" sample_app
            (world (snd (handleSelect (Some firestore) (Some "r1") "default-8d-app" "D5"
                           Workspace_init offline_world)))))
  = VStr "D1".
Proof.
  refine (proj2 (proj2 (proj2
    (select_discipline_not_persisted_offline "default-8d-app" "r1" "D5" "D1"
       sample_app offline_world (newReportData sample_env "u123456789") Workspace_init
       _ _ _ _ _ _ _)))).
  - discriminate.
  - reflexivity.
  - reflexivity.
  - vm_compute. reflexivity.
  - apply (bool_decide_unpack _). vm_compute. reflexivity.
  - reflexivity.
  - discriminate.
Defined.

(** X12: The reports listed on the dashboard: one per document, in the order
    delivered, each with the fields of its document; it carries the
    document's identifier as [id] unless the document itself has an [id]
    field, which then takes its place.  The loading flag is lowered and
    neither the screen nor the selection changes. *)
Theorem listed_reports_carry_ids (querySnapshot : list (string * fields)) (a : App) :
  let a' := onReportsSnapshot querySnapshot a in
  length (reports a') = length querySnapshot
  /\ isLoading a' = false /\ view a' = view a /\ activeReportId a' = activeReportId a
  /\ (forall i docId data, querySnapshot !! i = Some (docId, data) -> NoDup (keys data) ->
        exists r, reports a' !! i = Some r
          /\ (forall k, k <> "id" -> obj_get k r = obj_get k data)
          /\ (obj_get "id" data = None -> obj_get "id" r = Some (VStr docId))
          /\ (forall x, obj_get "id" data = Some x -> obj_get "id" r = Some x)).
Proof.
  intros a'. subst a'. unfold onReportsSnapshot. cbn.
  split; [apply length_map|]. repeat split.
  intros i docId data Hi Hnd.
  exists (spread [("id", VStr docId)] data).
  rewrite list_lookup_fmap, Hi. split; [reflexivity|].
  split; [intros k Hk; now apply obj_get_with_id|].
  split; intros; rewrite obj_get_spread by exact Hnd.
  - now rewrite H.
  - now rewrite H.
Qed.

Lemma listed_reports_carry_ids_witness :
  exists r, reports (onReportsSnapshot [("r1", [("title", VStr "t")])] App_init) !! 0 = Some r
            /\ obj_get "id" r = Some (VStr "r1").
Proof.
  destruct (proj2 (proj2 (proj2 (proj2
    (listed_reports_carry_ids [("r1", [("title", VStr "t")])] App_init))))
    0 "r1" [("title", VStr "t")] eq_refl) as (r & H1 & _ & H3 & _).
  - apply (bool_decide_unpack _). vm_compute. reflexivity.
  - exists r. split; [exact H1 | apply H3; reflexivity].
Defined.

(* --------------------------------------------------------------------- *)
(* The export in general                                                  *)
(* --------------------------------------------------------------------- *)

Section Outline.

Variable splitTextToSize : string -> Z -> list string.
Variable finalY : Z -> list (list string) -> list (list string) -> Z.

Lemma texts_app (l1 l2 : list PdfOp) : texts (l1 ++ l2) = texts l1 ++ texts l2.
Proof. apply flat_map_app. Qed.

Lemma saves_app (l1 l2 : list PdfOp) : saves (l1 ++ l2) = saves l1 ++ saves l2.
Proof. apply flat_map_app. Qed.

Lemma texts_pageBreak (d : PdfDoc) : texts (ops (pageBreak d)) = texts (ops d).
Proof.
  destruct (ops_pageBreak d) as [H|H]; rewrite H; [reflexivity|].
  rewrite texts_app. apply app_nil_r.
Qed.

Lemma saves_pageBreak (d : PdfDoc) : saves (ops (pageBreak d)) = saves (ops d).
Proof.
  destruct (ops_pageBreak d) as [H|H]; rewrite H; [reflexivity|].
  rewrite saves_app. apply app_nil_r.
Qed.

Lemma texts_addSection (t : string) (d : PdfDoc) :
  texts (ops (addSection t d)) = texts (ops d) ++ [t].
Proof.
  unfold addSection. cbv zeta.
  rewrite !ops_call, !ops_setY, !ops_call, !texts_app, texts_pageBreak.
  simpl. now rewrite !app_nil_r.
Qed.

Lemma saves_addSection (t : string) (d : PdfDoc) :
  saves (ops (addSection t d)) = saves (ops d).
Proof.
  unfold addSection. cbv zeta.
  rewrite !ops_call, !ops_setY, !ops_call, !saves_app, saves_pageBreak.
  simpl. now rewrite !app_nil_r.
Qed.

Lemma texts_autoTable (h b : list (list string)) (d : PdfDoc) :
  texts (ops (autoTable finalY h b d)) = texts (ops d).
Proof.
  unfold autoTable. cbv zeta. rewrite ops_setY, ops_call, texts_app. apply app_nil_r.
Qed.

Lemma saves_autoTable (h b : list (list string)) (d : PdfDoc) :
  saves (ops (autoTable finalY h b d)) = saves (ops d).
Proof.
  unfold autoTable. cbv zeta. rewrite ops_setY, ops_call, saves_app. apply app_nil_r.
Qed.

Lemma texts_forEachWhy (whys : list string) (i : nat) (d : PdfDoc) :
  texts (ops (forEachWhy splitTextToSize i whys d)) = texts (ops d).
Proof.
  revert i d. induction whys as [|why rest IH]; intros i d; simpl; [reflexivity|].
  rewrite IH, ops_setY, ops_call, texts_app. apply app_nil_r.
Qed.

Lemma saves_forEachWhy (whys : list string) (i : nat) (d : PdfDoc) :
  saves (ops (forEachWhy splitTextToSize i whys d)) = saves (ops d).
Proof.
  revert i d. induction whys as [|why rest IH]; intros i d; simpl; [reflexivity|].
  rewrite IH, ops_setY, ops_call, saves_app. apply app_nil_r.
Qed.

Lemma numbered_lookup (whys : list string) (k i : nat) :
  numbered k whys !! i =
  (fun why => (string_of_nat (k + i + 1) ++ ". " ++ why)%string) <$> whys !! i.
Proof.
  revert k i. induction whys as [|why rest IH]; intros k i; [reflexivity|].
  destruct i as [|i]; simpl.
  - now rewrite Nat.add_0_r.
  - rewrite IH. now replace (S k + i + 1) with (k + S i + 1) by lia.
Qed.

Lemma length_numbered (whys : list string) (k : nat) :
  length (numbered k whys) = length whys.
Proof. revert k. induction whys as [|why rest IH]; intros k; simpl; [|rewrite IH]; reflexivity. Qed.

End Outline.

(** X13: The whys of any report are exported one array of lines each, in
    order, the why at index [i] as the text "<i+1>. <why>" split at width
    180; nothing else of the export is drawn as an array of lines. *)
Theorem export_numbers_every_why
    (splitTextToSize : string -> Z -> list string)
    (finalY : Z -> list (list string) -> list (list string) -> Z) (report : Report) :
  let whys := five_whys (d4_root_cause report) in
  let drawn := lineArrays (generatePdf splitTextToSize finalY report) in
  length drawn = length whys
  /\ forall i, drawn !! i =
       (fun why => splitTextToSize (string_of_nat (i + 1) ++ ". " ++ why)%string 180%Z)
         <$> whys !! i.
Proof.
  intros whys drawn. subst whys drawn. rewrite lineArrays_generatePdf.
  split; [now rewrite length_map, length_numbered|].
  intros i. rewrite list_lookup_fmap, numbered_lookup.
  now destruct (five_whys (d4_root_cause report) !! i).
Qed.

(** X14: The export has exactly four tables, for D1 to D4 in this order: the
    team by name and role, the problem description with one row per entry
    of [d2_problem] in its key order, the containment actions without
    their [verified] flag, and the fishbone; D5 to D8 are not exported. *)
Theorem export_has_four_tables
    (splitTextToSize : string -> Z -> list string)
    (finalY : Z -> list (list string) -> list (list string) -> Z) (report : Report) :
  let ts := tables (generatePdf splitTextToSize finalY report) in
  map fst ts =
    [ [["Nombre"; "Rol"]]; [["Pregunta"; "Descripción"]];
      [["Acción"; "Responsable"; "Fecha"]]; [["Categoría"; "Causas Potenciales"]] ]
  /\ map (fun t => length (snd t)) ts =
       [ length (d1_team report); length (d2_problem report);
         length (d3_containment report); length (fishbone (d4_root_cause report)) ]
  /\ (forall i m, d1_team report !! i = Some m ->
        exists t, ts !! 0 = Some t /\ snd t !! i = Some [name m; role m])
  /\ (forall i k v, d2_problem report !! i = Some (k, v) ->
        exists t, ts !! 1 = Some t /\ snd t !! i = Some [k; v])
  /\ (forall i a, d3_containment report !! i = Some a ->
        exists t, ts !! 2 = Some t
                  /\ snd t !! i = Some [action a; responsible a; date a]).
Proof.
  intros ts. subst ts. rewrite tables_generatePdf. cbn [map fst snd].
  split; [reflexivity|].
  split; [unfold entries_rows, fishbone_rows; now rewrite !length_map|].
  repeat split.
  - intros i m H. eexists. split; [reflexivity|]. cbn [snd].
    now rewrite list_lookup_fmap, H.
  - intros i k v H. eexists. split; [reflexivity|]. cbn [snd]. unfold entries_rows.
    now rewrite list_lookup_fmap, H.
  - intros i a H. eexists. split; [reflexivity|]. cbn [snd].
    now rewrite list_lookup_fmap, H.
Qed.

Lemma export_has_four_tables_witness :
  exists t, tables (generatePdf one_line below (sample_report creation_order_fishbone)) !! 0
            = Some t
            /\ snd t !! 0 = Some ["Ana"; "Líder"].
Proof.
  exact (proj1 (proj2 (proj2
    (export_has_four_tables one_line below (sample_report creation_order_fishbone))))
    0 (mkMember "Ana" "Líder") eq_refl).
Defined.

(** X15: The outline of every export: the heading, the report's title, the
    headings of D1 to D4 and of the two parts of D4, in this order and
    whatever the layout; one file is saved, named after the report's
    identifier, and saving is the last call. *)
Theorem export_outline
    (splitTextToSize : string -> Z -> list string)
    (finalY : Z -> list (list string) -> list (list string) -> Z) (report : Report) :
  let l := generatePdf splitTextToSize finalY report in
  texts l =
    [ "Informe 8D"; title report; "D1: Formar el Equipo";
      "D2: Describir el Problema (5W2H)"; "D3: Acciones de Contención";
      "D4: Análisis de Causa Raíz"; "5 Porqués:"; "Diagrama de Ishikawa:" ]
  /\ saves l = [("Informe_8D_" ++ report_id report ++ ".pdf")%string]
  /\ last l = Some (Save ("Informe_8D_" ++ report_id report ++ ".pdf")%string).
Proof.
  intros l. subst l. split; [|split].
  - unfold generatePdf. cbv zeta.
    repeat first
      [ rewrite ops_call | rewrite ops_setY | rewrite texts_app
      | rewrite texts_autoTable | rewrite texts_addSection
      | rewrite texts_pageBreak | rewrite texts_forEachWhy ].
    simpl. reflexivity.
  - unfold generatePdf. cbv zeta.
    repeat first
      [ rewrite ops_call | rewrite ops_setY | rewrite saves_app
      | rewrite saves_autoTable | rewrite saves_addSection
      | rewrite saves_pageBreak | rewrite saves_forEachWhy ].
    simpl. reflexivity.
  - unfold generatePdf. cbv zeta. rewrite ops_call. apply last_snoc.
Qed.

Section PageBreaks.

Variable splitTextToSize : string -> Z -> list string.
Variable finalY : Z -> list (list string) -> list (list string) -> Z.

Lemma pageBreaks_app (l1 l2 : list PdfOp) :
  pageBreaks (l1 ++ l2) = pageBreaks l1 + pageBreaks l2.
Proof. unfold pageBreaks. now rewrite flat_map_app, length_app. Qed.

Lemma pageBreaks_pageBreak (d : PdfDoc) :
  pageBreaks (ops (pageBreak d)) =
  pageBreaks (ops d) + (if (250 <? y d)%Z then 1 else 0).
Proof.
  unfold pageBreak. destruct (250 <? y d)%Z.
  - now rewrite ops_setY, ops_call, pageBreaks_app.
  - now rewrite Nat.add_0_r.
Qed.

Lemma pageBreaks_addSection (t : string) (d : PdfDoc) :
  pageBreaks (ops (addSection t d)) =
  pageBreaks (ops d) + (if (250 <? y d)%Z then 1 else 0).
Proof.
  unfold addSection. cbv zeta.
  rewrite !ops_call, !ops_setY, !ops_call, !pageBreaks_app, pageBreaks_pageBreak.
  unfold pageBreaks. simpl. destruct (250 <? y d)%Z; lia.
Qed.

Lemma pageBreaks_autoTable (h b : list (list string)) (d : PdfDoc) :
  pageBreaks (ops (autoTable finalY h b d)) = pageBreaks (ops d).
Proof.
  unfold autoTable. cbv zeta. rewrite ops_setY, ops_call, pageBreaks_app.
  unfold pageBreaks. simpl. lia.
Qed.

(** The loop over the whys never starts a page. *)
Lemma pageBreaks_forEachWhy (whys : list string) (i : nat) (d : PdfDoc) :
  pageBreaks (ops (forEachWhy splitTextToSize i whys d)) = pageBreaks (ops d).
Proof.
  revert i d. induction whys as [|why rest IH]; intros i d; simpl; [reflexivity|].
  rewrite IH, ops_setY, ops_call, pageBreaks_app. unfold pageBreaks. simpl. lia.
Qed.

End PageBreaks.

(** X16: The export starts a page of its own only before a section heading and
    before the fishbone: at most five times, however many team members,
    actions and whys the report has; the loop over the whys never does. *)
Theorem export_page_breaks_bounded
    (splitTextToSize : string -> Z -> list string)
    (finalY : Z -> list (list string) -> list (list string) -> Z) (report : Report) :
  pageBreaks (generatePdf splitTextToSize finalY report) <= 5
  /\ forall i whys d,
       pageBreaks (ops (forEachWhy splitTextToSize i whys d)) = pageBreaks (ops d).
Proof.
  split; [|intros; apply pageBreaks_forEachWhy].
  unfold generatePdf. cbv zeta.
  repeat first
    [ rewrite ops_call | rewrite ops_setY | rewrite pageBreaks_app
    | rewrite pageBreaks_autoTable | rewrite pageBreaks_addSection
    | rewrite pageBreaks_pageBreak | rewrite pageBreaks_forEachWhy ].
  unfold pageBreaks at 1 2 3 4 5 6 7 8 9 10 11 12. simpl.
  repeat match goal with
         | |- context [if ?c then 1 else 0] => destruct c
         end; lia.
Qed.

(* --------------------------------------------------------------------- *)
(* The script loader and the export button                                *)
(* --------------------------------------------------------------------- *)

Section Loader.

Variable fetches : string -> bool.

Lemma loadScript_cached (src : string) (p : Page) :
  src ∈ loadedScripts p -> loadScript fetches src p = (p, Resolved).
Proof. intros H. unfold loadScript. now rewrite bool_decide_eq_true_2. Qed.

Lemma loadScript_fresh (src : string) (p : Page) :
  src ∉ loadedScripts p ->
  loadScript fetches src p =
  if fetches src
  then (mkPage ({[src]} ∪ loadedScripts p) (scripts p ++ [src]), Resolved)
  else (mkPage (loadedScripts p) (scripts p ++ [src]),
        Error ("Script load error for " ++ src)%string).
Proof. intros H. unfold loadScript. now rewrite bool_decide_eq_false_2. Qed.

Lemma loadScript_Resolved_cached (src : string) (p : Page) :
  snd (loadScript fetches src p) = Resolved ->
  src ∈ loadedScripts (fst (loadScript fetches src p)).
Proof.
  destruct (decide (src ∈ loadedScripts p)) as [Hin|Hnin].
  - now rewrite loadScript_cached.
  - rewrite loadScript_fresh by exact Hnin.
    destruct (fetches src); simpl; [|discriminate].
    intros _. apply elem_of_union_l. now apply elem_of_singleton.
Qed.

Lemma loadScript_cache_grows (src : string) (p : Page) :
  loadedScripts p ⊆ loadedScripts (fst (loadScript fetches src p)).
Proof.
  destruct (decide (src ∈ loadedScripts p)) as [Hin|Hnin].
  - now rewrite loadScript_cached.
  - rewrite loadScript_fresh by exact Hnin.
    destruct (fetches src); simpl; [apply union_subseteq_r | reflexivity].
Qed.

End Loader.

(** X17: A script that was loaded once is never requested again: a later
    [loadScript] of the same source resolves at once and adds no script
    element, whatever the network does by then. *)
Theorem loaded_script_is_not_requested_again (fetches fetches' : string -> bool)
    (src : string) (p : Page) :
  snd (loadScript fetches src p) = Resolved ->
  loadScript fetches' src (fst (loadScript fetches src p))
  = (fst (loadScript fetches src p), Resolved).
Proof.
  intros H. apply loadScript_cached. now apply loadScript_Resolved_cached.
Qed.

Lemma loaded_script_is_not_requested_again_witness :
  loadScript (fun _ => false) jspdf_src
    (fst (loadScript (fun _ => true) jspdf_src (mkPage ∅ [])))
  = (fst (loadScript (fun _ => true) jspdf_src (mkPage ∅ [])), Resolved).
Proof.
  exact (loaded_script_is_not_requested_again (fun _ => true) (fun _ => false)
           jspdf_src (mkPage ∅ []) eq_refl).
Defined.

(** X18: A load that fails is not remembered: the promise rejects with the
    message naming the source, the cache is unchanged, and a retry adds a
    second script element for the same source. *)
Theorem failed_script_is_requested_again (fetches fetches' : string -> bool)
    (src : string) (p : Page) :
  src ∉ loadedScripts p -> fetches src = false ->
  let r := loadScript fetches src p in
  snd r = Error ("Script load error for " ++ src)%string
  /\ loadedScripts (fst r) = loadedScripts p
  /\ scripts (fst r) = scripts p ++ [src]
  /\ scripts (fst (loadScript fetches' src (fst r))) = scripts p ++ [src; src].
Proof.
  intros Hnin Hf r. subst r. rewrite loadScript_fresh, Hf by exact Hnin. cbn [fst snd].
  repeat split.
  rewrite loadScript_fresh by exact Hnin. cbn [scripts loadedScripts].
  destruct (fetches' src); cbn [fst scripts]; now rewrite <- app_assoc.
Qed.

Lemma failed_script_is_requested_again_witness :
  scripts (fst (loadScript (fun _ => true) jspdf_src
                  (fst (loadScript (fun _ => false) jspdf_src (mkPage ∅ [])))))
  = [jspdf_src; jspdf_src].
Proof.
  refine (proj2 (proj2 (proj2
    (failed_script_is_requested_again (fun _ => false) (fun _ => true) jspdf_src
       (mkPage ∅ []) _ eq_refl)))).
  apply not_elem_of_empty.
Defined.

(** X19: The export button: whatever happens, the generating indicator is
    lowered again and the active discipline is untouched.  A file is
    produced exactly when nothing is logged; with both scripts available it
    is the export of the report and both scripts are cached afterwards;
    when one of the two scripts is not cached and fails to load, no file is
    produced and one failure is logged. *)
Theorem export_button_always_recovers (fetches : string -> bool)
    (splitTextToSize : string -> Z -> list string)
    (finalY : Z -> list (list string) -> list (list string) -> Z)
    (report : Report) (s : WorkspaceState) (p : Page) :
  let r := handleGeneratePdf fetches splitTextToSize finalY report s p in
  isGeneratingPdf (ws_after r) = false
  /\ activeDiscipline (ws_after r) = activeDiscipline s
  /\ (pdf r = None <-> export_log r <> [])
  /\ loadedScripts p ⊆ loadedScripts (page_after r)
  /\ (fetches jspdf_src = true -> fetches autotable_src = true ->
        pdf r = Some (generatePdf splitTextToSize finalY report)
        /\ jspdf_src ∈ loadedScripts (page_after r)
        /\ autotable_src ∈ loadedScripts (page_after r))
  /\ (forall src, src = jspdf_src \/ src = autotable_src ->
        src ∉ loadedScripts p -> fetches src = false ->
        pdf r = None
        /\ exists m, export_log r = [("Failed to load PDF generation scripts:", m)]).
Proof.
  intros r. subst r. unfold handleGeneratePdf, loadBoth.
  pose proof (loadScript_cache_grows fetches jspdf_src p) as Hg1.
  pose proof (loadScript_Resolved_cached fetches jspdf_src p) as Hc1.
  destruct (loadScript fetches jspdf_src p) as [p1 r1] eqn:E1.
  pose proof (loadScript_cache_grows fetches autotable_src p1) as Hg2.
  pose proof (loadScript_Resolved_cached fetches autotable_src p1) as Hc2.
  destruct (loadScript fetches autotable_src p1) as [p2 r2] eqn:E2.
  cbn [fst snd] in *.
  assert (Hsub : loadedScripts p ⊆ loadedScripts p2) by (etransitivity; eassumption).
  split; [destruct r1, r2; reflexivity|].
  split; [destruct r1, r2; reflexivity|].
  split; [destruct r1, r2; cbn; split; intros; congruence|].
  split; [destruct r1, r2; exact Hsub|].
  split.
  - intros F1 F2.
    assert (r1 = Resolved) as ->.
    { destruct (decide (jspdf_src ∈ loadedScripts p)) as [Hin|Hnin].
      - rewrite loadScript_cached in E1 by exact Hin. congruence.
      - rewrite loadScript_fresh, F1 in E1 by exact Hnin. congruence. }
    assert (r2 = Resolved) as ->.
    { destruct (decide (autotable_src ∈ loadedScripts p1)) as [Hin|Hnin].
      - rewrite loadScript_cached in E2 by exact Hin. congruence.
      - rewrite loadScript_fresh, F2 in E2 by exact Hnin. congruence. }
    cbn. split; [reflexivity|]. split; [apply Hg2, Hc1|apply Hc2]; reflexivity.
  - intros src [->| ->] Hnin F.
    + rewrite loadScript_fresh, F in E1 by exact Hnin.
      injection E1 as <- <-. cbn. split; [reflexivity | eauto].
    + assert (Hnin1 : autotable_src ∉ loadedScripts p1).
      { destruct (decide (jspdf_src ∈ loadedScripts p)) as [Hin|Hnin0].
        - rewrite loadScript_cached in E1 by exact Hin. now injection E1 as <- <-.
        - rewrite loadScript_fresh in E1 by exact Hnin0.
          destruct (fetches jspdf_src); injection E1 as <- <-; cbn; [|exact Hnin].
          intros [Hx|Hx]%elem_of_union; [|contradiction].
          apply elem_of_singleton in Hx. discriminate Hx. }
      rewrite loadScript_fresh, F in E2 by exact Hnin1.
      injection E2 as <- <-. destruct r1; cbn; split; eauto.
Qed.

Lemma export_button_always_recovers_witness :
  pdf (handleGeneratePdf (fun _ => false) one_line below
         (sample_report creation_order_fishbone) Workspace_init (mkPage ∅ []))
  = None.
Proof.
  refine (proj1 (proj2 (proj2 (proj2 (proj2 (proj2
    (export_button_always_recovers (fun _ => false) one_line below
       (sample_report creation_order_fishbone) Workspace_init (mkPage ∅ []))))))
    jspdf_src _ _ eq_refl)).
  - now left.
  - apply not_elem_of_empty.
Defined.

(* --------------------------------------------------------------------- *)
(* The application as a transition system                                 *)
(* --------------------------------------------------------------------- *)

Section Transitions.

Variable appId : string.

Lemma refresh_idle (a : App) (w : World) :
  view a = dashboard \/ missing (db a) || absent (activeReportId a) = true ->
  refresh appId a w = setActiveReport None a.
Proof.
  intros H. unfold refresh, activeReportEffect.
  destruct (view a); [reflexivity|].
  destruct H as [H|H]; [discriminate|]. now rewrite H.
Qed.

Lemma refresh_found (a : App) (w : World) (id : string) (data : fields) :
  view a = workspace -> db a <> None -> activeReportId a = Some id -> id <> "" ->
  docs w !! reportDocPath appId id = Some data ->
  refresh appId a w = setActiveReport (Some (spread [("id", VStr id)] data)) a.
Proof.
  intros Hv Hdb Hid Hne Hdoc. unfold refresh, activeReportEffect.
  rewrite Hv, Hid, (absent_Some_false _ Hne).
  destruct (db a); [|congruence]. cbn [missing orb].
  rewrite Hid. change (default "" (Some id)) with id. now rewrite Hdoc.
Qed.

Lemma refresh_gone (a : App) (w : World) (id : string) :
  view a = workspace -> db a <> None -> activeReportId a = Some id -> id <> "" ->
  docs w !! reportDocPath appId id = None ->
  refresh appId a w = setActiveReport None (setView dashboard a).
Proof.
  intros Hv Hdb Hid Hne Hdoc. unfold refresh, activeReportEffect.
  rewrite Hv, Hid, (absent_Some_false _ Hne).
  destruct (db a); [|congruence]. cbn [missing orb].
  rewrite Hid. change (default "" (Some id)) with id. now rewrite Hdoc.
Qed.

(** The three ways a refresh can end. *)
Lemma refresh_cases (a : App) (w : World) :
  refresh appId a w = setActiveReport None a
  \/ (exists id data,
        view a = workspace /\ db a <> None /\ activeReportId a = Some id /\ id <> ""
        /\ docs w !! reportDocPath appId id = Some data
        /\ refresh appId a w = setActiveReport (Some (spread [("id", VStr id)] data)) a)
  \/ (exists id,
        view a = workspace /\ activeReportId a = Some id
        /\ docs w !! reportDocPath appId id = None
        /\ refresh appId a w = setActiveReport None (setView dashboard a)).
Proof.
  destruct (view a) eqn:Hv; [left; apply refresh_idle; now left|].
  destruct (missing (db a) || absent (activeReportId a)) eqn:Hg;
    [left; apply refresh_idle; now right|].
  apply orb_false_iff in Hg as [Hdb Hid].
  assert (Hdb' : db a <> None) by (destruct (db a); [discriminate | discriminate]).
  destruct (activeReportId a) as [id|] eqn:Hrid; [|discriminate].
  simpl in Hid. apply String.eqb_neq in Hid.
  destruct (docs w !! reportDocPath appId id) as [data|] eqn:Hdoc.
  - right. left. exists id, data.
    repeat split; try assumption. now apply (refresh_found a w id data).
  - right. right. exists id. repeat split; try assumption.
    now apply (refresh_gone a w id).
Qed.

Lemma refresh_shows (a : App) (w : World) :
  shows_active_report appId (refresh appId a w, w).
Proof.
  unfold shows_active_report. cbn [fst snd].
  destruct (refresh_cases a w) as [H|[(id & data & Hv & Hdb & Hid & Hne & Hdoc & H)|
                                     (id & Hv & Hid & Hdoc & H)]];
    rewrite H; cbn; [exact I| |exact I].
  repeat split; try assumption. exists id, data. auto.
Qed.

Lemma step_shows (e : Event) (s : App * World) :
  shows_active_report appId s -> shows_active_report appId (step appId e s).
Proof.
  intros Hs. destruct s as [a w]. unfold step.
  destruct (enabled a e); cbn [negb]; [|exact Hs].
  destruct e.
  - destruct (handleCreateNewReport appId env a w) as [a' o]. apply refresh_shows.
  - apply refresh_shows.
  - apply refresh_shows.
  - apply refresh_shows.
  - apply refresh_shows.
  - apply refresh_shows.
Qed.


End Transitions.





(** X22: The two screens: from the dashboard only a creation or a selection
    leads to the workspace (a deletion or a change of the store never
    does); the workspace is left only by the home button or because the
    active report's document is no longer in the store. *)
Theorem screen_transitions (appId : string) (e : Event) (a : App) (w : World) :
  let s' := step appId e (a, w) in
  (view a = dashboard -> view (fst s') = workspace ->
     (exists env, e = EvCreate env) \/ (exists id, e = EvSelect id))
  /\ (view a = workspace -> view (fst s') = dashboard ->
        e = EvGoToDashboard
        \/ exists id, activeReportId a = Some id
                      /\ docs (snd s') !! reportDocPath appId id = None).
Proof.
  intros s'. subst s'. unfold step. split.
  - intros Hv. destruct e; cbn [enabled]; try rewrite Hv; cbn [negb fst]; eauto;
      try (rewrite Hv; discriminate).
    + rewrite refresh_idle by now left. cbn. rewrite Hv. discriminate.
    + rewrite refresh_idle by now left. cbn. rewrite Hv. discriminate.
  - intros Hv. destruct e; cbn [enabled]; try rewrite Hv; cbn [negb fst snd]; eauto;
      try (rewrite Hv; discriminate).
    + destruct (missing (activeReport a)); cbn [negb fst snd];
        [rewrite Hv; discriminate|].
      destruct (refresh_cases appId a
                  (world (handleDeepUpdate (db a) (activeReportId a) appId path v w)))
        as [H|[(id & data & _ & _ & _ & _ & _ & H)|(id & _ & Hid & Hdoc & H)]];
        rewrite H; cbn; try (rewrite Hv; discriminate).
      intros _. right. eauto.
    + destruct (refresh_cases appId a w') as
        [H|[(id & data & _ & _ & _ & _ & _ & H)|(id & _ & Hid & Hdoc & H)]];
        rewrite H; cbn; try (rewrite Hv; discriminate).
      intros _. right. eauto.
Qed.

Lemma screen_transitions_witness :
  (exists env, EvCreate sample_env = EvCreate env)
  \/ (exists id, EvCreate sample_env = EvSelect id).
Proof.
  exact (proj1 (screen_transitions "default-8d-app" (EvCreate sample_env) sample_app
                  empty_world) eq_refl eq_refl).
Defined.

(** X23: A new report opens at once: after a successful creation from the
    dashboard the workspace shows the created document under the
    identifier the store chose, positioned at D1. *)
Theorem new_report_opens_at_D1 (appId : string) (env : Env) (a : App) (w : World)
    (uid : string) :
  view a = dashboard -> db a = Some firestore -> userId a = Some uid -> uid <> "" ->
  online w = true -> autoId env <> "" ->
  let s' := step appId (EvCreate env) (a, w) in
  view (fst s') = workspace
  /\ activeReportId (fst s') = Some (autoId env)
  /\ activeReport (fst s') = Some (("id", VStr (autoId env)) :: newReportData env uid)
  /\ docs (snd s') !! reportDocPath appId (autoId env) = Some (newReportData env uid)
  /\ activeDiscipline (reportEffect (activeReport (fst s')) Workspace_init) = VStr "D1".
Proof.
  intros Hv Hdb Hu Hne Hon Hauto s'. subst s'. unfold step, enabled.
  rewrite Hv. cbn [negb].
  rewrite (create_accepted appId env a w uid Hdb Hu Hne Hon).
  cbn [world fst snd docs].
  rewrite (refresh_found appId _ _ (autoId env) (newReportData env uid)).
  - cbn. rewrite lookup_insert_eq. repeat split.
  - reflexivity.
  - cbn. rewrite Hdb. discriminate.
  - reflexivity.
  - exact Hauto.
  - apply lookup_insert_eq.
Qed.

Lemma new_report_opens_at_D1_witness :
  view (fst (step "default-8d-app" (EvCreate sample_env) (sample_app, empty_world)))
  = workspace.
Proof.
  refine (proj1 (new_report_opens_at_D1 "default-8d-app" sample_env sample_app
                   empty_world "u123456789" _ _ _ _ _ _));
    try reflexivity; discriminate.
Defined.

(** X24: A deleted report cannot be opened: selecting it afterwards (from a
    card that is still listed) falls back to the dashboard with no report
    shown, and the store is left without the document. *)
Theorem deleted_report_cannot_be_opened (appId id : string) (a : App) (w : World) :
  view a = dashboard -> db a = Some firestore -> id <> "" -> online w = true ->
  let s1 := step appId (EvDelete id) (a, w) in
  let s2 := step appId (EvSelect id) s1 in
  view (fst s1) = dashboard
  /\ docs (snd s1) !! reportDocPath appId id = None
  /\ view (fst s2) = dashboard
  /\ activeReport (fst s2) = None
  /\ snd s2 = snd s1.
Proof.
  intros Hv Hdb Hid Hon s1 s2. subst s2 s1.
  assert (H1 : step appId (EvDelete id) (a, w) =
               (setActiveReport None a,
                mkWorld (delete (reportDocPath appId id) (docs w)) true)).
  { unfold step. cbn [enabled]. rewrite Hv. cbn [negb].
    unfold handleDeleteReport, deleteDoc. rewrite Hdb, Hon. cbn [missing world].
    now rewrite refresh_idle by now left. }
  rewrite H1. unfold step. cbn [enabled view setActiveReport]. rewrite Hv. cbn [negb].
  rewrite (refresh_gone appId _ _ id).
  - cbn. rewrite Hv, lookup_delete_eq. repeat split.
  - reflexivity.
  - cbn. rewrite Hdb. discriminate.
  - reflexivity.
  - exact Hid.
  - apply lookup_delete_eq.
Qed.

Lemma deleted_report_cannot_be_opened_witness :
  view (fst (step "default-8d-app" (EvSelect "r1")
               (step "default-8d-app" (EvDelete "r1") (sample_app, sample_world))))
  = dashboard.
Proof.
  refine (proj1 (proj2 (proj2 (deleted_report_cannot_be_opened "default-8d-app" "r1"
                                 sample_app sample_world _ _ _ _))));
    try reflexivity; discriminate.
Defined.

(** X25: Going home and opening the same report again shows the same report:
    with the store unchanged, the home button followed by a click on the
    report's card brings back the workspace with the document that was on
    screen. *)
Theorem home_and_back_shows_same_report (appId id : string) (s : App * World)
    (r : fields) :
  shows_active_report appId s ->
  activeReport (fst s) = Some r -> activeReportId (fst s) = Some id ->
  let s1 := step appId EvGoToDashboard s in
  let s2 := step appId (EvSelect id) s1 in
  view (fst s1) = dashboard /\ activeReport (fst s1) = None
  /\ activeReportId (fst s1) = None
  /\ view (fst s2) = workspace /\ activeReport (fst s2) = Some r
  /\ activeReportId (fst s2) = Some id /\ snd s2 = snd s.
Proof.
  intros Hs Hr Hid s1 s2. subst s2 s1. destruct s as [a w].
  unfold shows_active_report in Hs. cbn [fst snd] in *. rewrite Hr in Hs.
  destruct Hs as (Hv & Hdb & id' & data & Hid' & Hne & Hdoc & ->).
  assert (id' = id) as -> by congruence.
  assert (H1 : step appId EvGoToDashboard (a, w) =
               (setActiveReport None (handleGoToDashboard a), w)).
  { unfold step. cbn [enabled]. rewrite Hv, Hr. cbn [missing negb].
    now rewrite refresh_idle by now left. }
  rewrite H1. unfold step. cbn [enabled view setActiveReport handleGoToDashboard
    setActiveReportId setView negb fst snd].
  rewrite (refresh_found appId _ w id data); try assumption; try reflexivity.
  cbn. repeat split.
Qed.

Lemma home_and_back_shows_same_report_witness :
  view (fst (step "default-8d-app" (EvSelect "r1")
               (step "default-8d-app" EvGoToDashboard
                  (step "default-8d-app" (EvCreate sample_env)
                     (sample_app, empty_world)))))
  = workspace.
Proof.
  refine (proj1 (proj2 (proj2 (proj2
    (home_and_back_shows_same_report "default-8d-app" "r1"
       (step "default-8d-app" (EvCreate sample_env) (sample_app, empty_world))
       (("id", VStr "r1") :: newReportData sample_env "u123456789") _ _ _))))).
  - apply (step_shows "default-8d-app" (EvCreate sample_env) (sample_app, empty_world)).
    exact I.
  - reflexivity.
  - reflexivity.
Defined.

(** X26: When the initialization fails the application is declared ready
    without a storage handle: the list of reports is never subscribed to,
    so the dashboard keeps showing that it is loading, and a creation does
    nothing.  When it succeeds, the first notification of the identity
    provider makes the application ready, and with a signed-in user the
    list is subscribed to. *)
Theorem startup_without_storage_keeps_loading (appId : string) (env : Env) (w : World)
    (uid : string) :
  let a0 := fst (initFirebase false App_init) in
  let a1 := fst (onAuthStateChanged (Some uid) (fst (initFirebase true App_init))) in
  isAuthReady a0 = true
  /\ snd (initFirebase false App_init) = [("Error initializing Firebase:", None)]
  /\ reportsEffect appId a0 = (a0, None)
  /\ Dashboard_body a0 = LoadingReports
  /\ handleCreateNewReport appId env a0 w = (a0, quiet w)
  /\ isAuthReady (fst (initFirebase true App_init)) = false
  /\ reportsEffect appId (fst (initFirebase true App_init))
     = (fst (initFirebase true App_init), None)
  /\ snd (reportsEffect appId a1) = Some (reportsCollectionPath appId)
  /\ userId a1 = Some uid
  /\ (forall qs, Dashboard_body (onReportsSnapshot qs a1) <> LoadingReports)
  /\ (forall e, Dashboard_body (fst (onReportsError e a1)) = NoReports).
Proof.
  intros a0 a1. subst a0 a1. cbn. repeat split.
  intros qs. unfold Dashboard_body, onReportsSnapshot. cbn.
  destruct (map _ qs); discriminate.
Qed.

(** X27: A notification without a user asks for an anonymous sign-in and keeps
    the identity that was known: the user identifier is never cleared, so
    once it is set the guard of the creation keeps passing on it. *)
Theorem identity_is_never_cleared (users : list (option string)) (a : App) :
  absent (userId a) = false ->
  (forall uid, In (Some uid) users -> uid <> "") ->
  absent (userId (fold_left (fun a u => fst (onAuthStateChanged u a)) users a)) = false.
Proof.
  revert a. induction users as [|u users IH]; intros a Ha Hu; [exact Ha|].
  simpl. apply IH.
  - destruct u as [uid|]; [|exact Ha].
    cbn. apply String.eqb_neq. apply Hu. now left.
  - intros uid Hin. apply Hu. now right.
Qed.

Lemma identity_is_never_cleared_witness :
  absent (userId (fold_left (fun a u => fst (onAuthStateChanged u a))
                    [None; Some "u2"; None] sample_app)) = false.
Proof.
  apply (identity_is_never_cleared [None; Some "u2"; None] sample_app eq_refl).
  intros uid [H|[H|[H|[]]]]; try discriminate. injection H as <-. discriminate.
Defined.
